(** * Legends Z-A donut manager: inventory, recipe matching and cooking

    A shallow embedding of [streamlit_donut_app.py].  The program keeps its
    state in an SQLite database with three tables and drives it with a
    handful of SQL statements; every statement is embedded here as a
    function over the tables it touches:

    - [user_inventory (berry_name TEXT PRIMARY KEY, quantity INTEGER)]
      is a finite map from names to integers (the primary key makes the
      name unique);
    - [recipe_items (recipe_id, berry_name, count)] and [recipes] are
      lists of rows, in table order.

    Integers are unbounded ([Z]); the columns declared INTEGER hold
    integers, and SQL NULL appears only as the unmatched side of the
    LEFT JOIN of the search query, where it is an absent map entry.
    What [sqlite3] refuses to bind, a Python int outside the signed
    64-bit range, is refused here too (see [save_inventory]). *)

From Stdlib Require Import ZArith List Sorted Permutation Lia.
From stdpp Require Import gmap strings list fin_maps sorting.

Open Scope Z_scope.

(** ** Tables *)

(** A row of [recipe_items]. *)
Record RecipeItem := mkItem {
  recipe_id : Z;
  berry_name : string;
  count : Z
}.

(** A row of [recipes], with the columns the program reads: the five
    flavor columns and [flavor_sum] in the WHERE clause, the others in
    the SELECT list and in ORDER BY.  Column [id] is [r_id] here. *)
Record Recipe := mkRecipe {
  r_id : Z;
  ingredients : string;
  stars : Z;
  final_calories : Z;
  final_boost : Z;
  num_berries : Z;
  sweet : Z;
  spicy : Z;
  sour : Z;
  bitter : Z;
  fresh : Z;
  flavor_sum : Z
}.

(** The database file. *)
Record DB := mkDB {
  recipes : list Recipe;
  recipe_items : list RecipeItem;
  user_inventory : gmap string Z
}.

(** Rows of a DataFrame with the columns [berry_name] and [quantity]. *)
Definition DataFrame : Type := list (string * Z).

(** ** Inventory statements *)

(** [IFNULL(x, d)]. *)
Definition ifnull (x : option Z) (d : Z) : Z :=
  match x with
  | Some v => v
  | None => d
  end.

(** The quantity the search query reads for a name:
    [IFNULL(ui.quantity, 0)] over the LEFT JOIN on [berry_name]. *)
Definition inventory_quantity (inv : gmap string Z) (name : string) : Z :=
  ifnull (inv !! name) 0.

(** [UPDATE user_inventory SET quantity = MAX(0, quantity - ?)
     WHERE berry_name = ?]: the row of [name], when there is one, gets
    the clamped difference; no row is created. *)
Definition decrement (inv : gmap string Z) (name : string) (amount : Z)
  : gmap string Z :=
  alter (fun quantity => Z.max 0 (quantity - amount)) name inv.

(** [SELECT berry_name, count FROM recipe_items WHERE recipe_id = ?]. *)
Definition select_items (db : DB) (rid : Z) : list (string * Z) :=
  map (fun ri => (berry_name ri, count ri))
      (List.filter (fun ri => recipe_id ri =? rid) (recipe_items db)).

(** The loop of [cook_recipe] over the fetched rows. *)
Definition deduct (inv : gmap string Z) (rows : list (string * Z))
  : gmap string Z :=
  fold_left (fun inv row => decrement inv (fst row) (snd row)) rows inv.

(** [cook_recipe(recipe_id)]. *)
Definition cook_recipe (db : DB) (rid : Z) : DB :=
  {| recipes := recipes db;
     recipe_items := recipe_items db;
     user_inventory := deduct (user_inventory db) (select_items db rid) |}.

(** [UPDATE user_inventory SET quantity = ? WHERE berry_name = ?],
    run by [executemany] once per row of the frame. *)
Definition update_quantity (inv : gmap string Z) (row : string * Z)
  : gmap string Z :=
  alter (fun _ => snd row) (fst row) inv.

(** A quantity [sqlite3] can bind as an INTEGER parameter: a Python int
    inside the signed 64-bit range.  Binding any other int raises
    OverflowError. *)
Definition sqlite_integer (q : Z) : bool :=
  (-(2 ^ 63) <=? q) && (q <? 2 ^ 63).

(** [save_inventory(df)], the database part.  [executemany] runs the
    UPDATE once per row, in frame order.  When a quantity of the frame
    cannot be bound the call raises before [conn.commit()] is reached,
    the updates of the rows before it are never committed, and the file
    is as it was. *)
Definition save_inventory (db : DB) (df : DataFrame) : DB :=
  if forallb (fun row => sqlite_integer (snd row)) df then
    {| recipes := recipes db;
       recipe_items := recipe_items db;
       user_inventory := fold_left update_quantity df (user_inventory db) |}
  else db.

(** [INSERT OR IGNORE INTO user_inventory (berry_name, quantity)
     VALUES (?, 0)]. *)
Definition insert_or_ignore (inv : gmap string Z) (name : string)
  : gmap string Z :=
  match inv !! name with
  | Some _ => inv
  | None => <[name := 0]> inv
  end.

(** [SELECT DISTINCT berry_name FROM recipe_items]. *)
Definition distinct_berries (db : DB) : list string :=
  remove_dups (map berry_name (recipe_items db)).

(** [init_db]: an empty [user_inventory] is seeded with quantity 0 for
    every berry of [recipe_items]; a populated one is left alone. *)
Definition init_db (db : DB) : DB :=
  if decide (size (user_inventory db) = 0%nat) then
    {| recipes := recipes db;
       recipe_items := recipe_items db;
       user_inventory :=
         fold_left insert_or_ignore (distinct_berries db) (user_inventory db) |}
  else db.

(** ** The search query (tab 3) *)

(** [recipe_items ri LEFT JOIN user_inventory ui
     ON ri.berry_name = ui.berry_name]: the name is the primary key of
    [user_inventory], so each item row yields exactly one joined row,
    with [ui.quantity] NULL when no inventory row matches. *)
Definition left_join (db : DB) : list (RecipeItem * option Z) :=
  map (fun ri => (ri, user_inventory db !! berry_name ri)) (recipe_items db).

(** The sub-select of the NOT EXISTS: the joined rows of recipe [r]
    with [ri.count > IFNULL(ui.quantity, 0)]. *)
Definition short_rows (db : DB) (r : Recipe) : list (RecipeItem * option Z) :=
  List.filter
    (fun row => (recipe_id (fst row) =? r_id r)
                && (count (fst row) >? ifnull (snd row) 0))
    (left_join db).

(** [NOT EXISTS (SELECT 1 ...)]. *)
Definition craftable (db : DB) (r : Recipe) : bool :=
  match short_rows db r with
  | [] => true
  | _ :: _ => false
  end.

(** The keys of [flavor_filters]: the lower-cased names of the list
    [flavors], each the name of a column of [recipes]. *)
Inductive Flavor := Sweet | Spicy | Sour | Bitter | Fresh.

(** The column names [stat_filter] can carry. *)
Inductive Stat := Stars | FlavorSum | FinalBoost | FinalCalories.

Definition flavor_column (col : Flavor) : Recipe -> Z :=
  match col with
  | Sweet => sweet
  | Spicy => spicy
  | Sour => sour
  | Bitter => bitter
  | Fresh => fresh
  end.

Definition stat_column (col : Stat) : Recipe -> Z :=
  match col with
  | Stars => stars
  | FlavorSum => flavor_sum
  | FinalBoost => final_boost
  | FinalCalories => final_calories
  end.

(** [st.session_state.filters]: the items of the dict [flavor_filters]
    in insertion order, the optional [stat_filter] triple, and the
    checkbox [prioritize_min]. *)
Record Filters := mkFilters {
  flavors : list (Flavor * (Z * Z));
  stats : option (Stat * Z * Z);
  prio : bool
}.

(** [x BETWEEN min_v AND max_v]. *)
Definition between (x min_v max_v : Z) : bool :=
  (min_v <=? x) && (x <=? max_v).

(** The list [where_clauses]: one BETWEEN per flavor item, then one for
    the stat filter when it is set. *)
Definition where_clauses (f : Filters) : list (Recipe -> bool) :=
  map (fun item r =>
         between (flavor_column (fst item) r) (fst (snd item)) (snd (snd item)))
      (flavors f)
  ++ match stats f with
     | Some (col, min_v, max_v) =>
         [fun r => between (stat_column col r) min_v max_v]
     | None => []
     end.

(** [" AND ".join(where_clauses)]; the empty join adds no condition. *)
Definition where_sql (f : Filters) (r : Recipe) : bool :=
  forallb (fun clause => clause r) (where_clauses f).

Inductive Direction := ASC | DESC.

(** The two ORDER BY clauses. *)
Definition order_by (f : Filters) : list ((Recipe -> Z) * Direction) :=
  if prio f
  then [(num_berries, ASC); (final_calories, DESC)]
  else [(final_calories, DESC); (stars, DESC)].

(** Comparison of two rows under a list of ORDER BY terms: the first
    term on which they differ decides. *)
Fixpoint row_compare (terms : list ((Recipe -> Z) * Direction))
    (a b : Recipe) : comparison :=
  match terms with
  | [] => Eq
  | (col, dir) :: rest =>
      match (match dir with
             | ASC => col a ?= col b
             | DESC => col b ?= col a
             end) with
      | Eq => row_compare rest a b
      | c => c
      end
  end.

Definition row_leb (terms : list ((Recipe -> Z) * Direction))
    (a b : Recipe) : bool :=
  match row_compare terms a b with
  | Gt => false
  | _ => true
  end.

(** The sorter.  SQL fixes the order of the result only up to rows that
    tie on every ORDER BY term; which of them comes first is the
    engine's choice (it depends on the scan the query plan picks).  The
    sorter here inserts the rows one by one, each before the first row
    it does not come after; no property below depends on how it orders
    tied rows. *)
Fixpoint insert_row (leb : Recipe -> Recipe -> bool) (x : Recipe)
    (l : list Recipe) : list Recipe :=
  match l with
  | [] => [x]
  | y :: l' => if leb x y then x :: l else y :: insert_row leb x l'
  end.

Definition sort_rows (leb : Recipe -> Recipe -> bool) (l : list Recipe)
  : list Recipe :=
  fold_right (insert_row leb) [] l.

(** The rows of [recipes] that satisfy the WHERE clause. *)
Definition qualifying (db : DB) (f : Filters) : list Recipe :=
  List.filter (fun r => craftable db r && where_sql f r) (recipes db).

(** WHERE, then ORDER BY, then [LIMIT 50]. *)
Definition matched_rows (db : DB) (f : Filters) : list Recipe :=
  firstn 50 (sort_rows (row_leb (order_by f)) (qualifying db f)).

(** The SELECT list: [r.id, r.ingredients, r.stars, r.final_calories,
    r.final_boost, r.num_berries]. *)
Definition select_list (r : Recipe) : Z * string * Z * Z * Z * Z :=
  (r_id r, ingredients r, stars r, final_calories r, final_boost r,
   num_berries r).

(** [cursor.execute(query).fetchall()]. *)
Definition query (db : DB) (f : Filters) : list (Z * string * Z * Z * Z * Z) :=
  map select_list (matched_rows db f).

(** ** The session *)

(** The error kinds the specification names.  The program defines no
    exception of its own. *)
Inductive Error := NotFoundError | ValidationError.

(** How a call ends for its caller. *)
Inductive Outcome := Returned (db : DB) | Raised (e : Error).

(** The call [cook_recipe(r_id)] of the "Cook This" button.  The body of
    [cook_recipe] never reads [recipes] and has no [raise]: the call
    returns once the loop and the commit are done. *)
Definition cook (db : DB) (rid : Z) : Outcome :=
  Returned (cook_recipe db rid).

(** What a rerun of the script works on: the database file and
    [st.session_state.filters] (absent until the first search). *)
Record Session := mkSession {
  database : DB;
  filters : option Filters
}.

(** The user actions that reach the database or the search. *)
Inductive Action :=
| ConfirmImport (imported_df : DataFrame)
| EditInventory (edited_df : DataFrame)
| SearchRecipes (f : Filters)
| CookThis (rid : Z).

(** One operation of a rerun on the database or the stored filters.
    An import saves the uploaded frame as it is.  An edit saves the
    session's frame after [master_df.update]: the cells the user
    changed are [edited_df]; the others carry what was loaded from the
    table, and writing them back changes nothing.  A search stores its
    filters.  A cook deducts.  A rerun of the script that does more
    than one of these (the editor keeps a pending edit and can save it
    again on the rerun that follows a cook) is the sequence of its
    steps. *)
Definition step (s : Session) (a : Action) : Session :=
  match a with
  | ConfirmImport imported_df =>
      {| database := save_inventory (database s) imported_df;
         filters := filters s |}
  | EditInventory edited_df =>
      {| database := save_inventory (database s) edited_df;
         filters := filters s |}
  | SearchRecipes f =>
      {| database := database s; filters := Some f |}
  | CookThis rid =>
      {| database := cook_recipe (database s) rid; filters := filters s |}
  end.

(** What the widgets let through: the quantity column of the editor is
    a [NumberColumn] with [min_value=0] and [max_value=999]; a "Cook
    This" button exists only for a row of the shown results; the
    uploaded frame is checked for its two column names only. *)
Definition enabled (s : Session) (a : Action) : Prop :=
  match a with
  | ConfirmImport _ => True
  | EditInventory edited_df =>
      Forall (fun row => 0 <= snd row <= 999) edited_df
  | SearchRecipes _ => True
  | CookThis rid =>
      exists f, filters s = Some f /\ In rid (map r_id (matched_rows (database s) f))
  end.

(** The sessions a user can reach from a database file: [init_db] runs
    first, then any number of enabled actions. *)
Inductive reachable (db0 : DB) : Session -> Prop :=
| reach_init :
    reachable db0 {| database := init_db db0; filters := None |}
| reach_step s a :
    reachable db0 s -> enabled s a -> reachable db0 (step s a).

(** Every stored quantity is at least 0. *)
Definition nonneg (inv : gmap string Z) : Prop :=
  forall name q, inv !! name = Some q -> 0 <= q.


(** Modelled from the spec: the same missing declaration.  An
    ingredient list is part of a catalog recipe, so every item row
    carries the id of a row of [recipes]. *)
Definition items_belong (db : DB) : Prop :=
  forall ri, In ri (recipe_items db) -> In (recipe_id ri) (map r_id (recipes db)).

(** The ranking rule in the specification's words: [a] may stand before
    [b]. *)
Definition ranked (prioritize_min_berries : bool) (a b : Recipe) : Prop :=
  if prioritize_min_berries
  then num_berries a < num_berries b
       \/ (num_berries a = num_berries b /\ final_calories a >= final_calories b)
  else final_calories a > final_calories b
       \/ (final_calories a = final_calories b /\ stars a >= stars b).

(** The filter predicate in the specification's words, column by
    column: every range entered for a flavor holds the recipe's score
    for that flavor, and the range of the secondary stat, when one is
    set, holds the recipe's value of that stat; both bounds count as
    inside. *)
Definition passes (f : Filters) (r : Recipe) : Prop :=
  (forall min_v max_v, In (Sweet, (min_v, max_v)) (flavors f) ->
                       min_v <= sweet r <= max_v)
  /\ (forall min_v max_v, In (Spicy, (min_v, max_v)) (flavors f) ->
                          min_v <= spicy r <= max_v)
  /\ (forall min_v max_v, In (Sour, (min_v, max_v)) (flavors f) ->
                          min_v <= sour r <= max_v)
  /\ (forall min_v max_v, In (Bitter, (min_v, max_v)) (flavors f) ->
                          min_v <= bitter r <= max_v)
  /\ (forall min_v max_v, In (Fresh, (min_v, max_v)) (flavors f) ->
                          min_v <= fresh r <= max_v)
  /\ (forall min_v max_v, stats f = Some (Stars, min_v, max_v) ->
                          min_v <= stars r <= max_v)
  /\ (forall min_v max_v, stats f = Some (FlavorSum, min_v, max_v) ->
                          min_v <= flavor_sum r <= max_v)
  /\ (forall min_v max_v, stats f = Some (FinalBoost, min_v, max_v) ->
                          min_v <= final_boost r <= max_v)
  /\ (forall min_v max_v, stats f = Some (FinalCalories, min_v, max_v) ->
                          min_v <= final_calories r <= max_v).

(** ** Notions for the properties of frames, item rows and sessions *)

(** The quantity in the last row of a frame that names [n], if any row
    does. *)
Fixpoint last_quantity (df : DataFrame) (n : string) : option Z :=
  match df with
  | [] => None
  | row :: rest =>
      match last_quantity rest n with
      | Some q => Some q
      | None => if decide (fst row = n) then Some (snd row) else None
      end
  end.

(** The total count a list of fetched item rows asks of [n]. *)
Fixpoint required (rows : list (string * Z)) (n : string) : Z :=
  match rows with
  | [] => 0
  | row :: rest =>
      (if decide (fst row = n) then snd row else 0) + required rest n
  end.

(** The total count the rows of [recipe_items] with recipe id [rid] ask
    of the berry [n]. *)
Fixpoint asked (items : list RecipeItem) (rid : Z) (n : string) : Z :=
  match items with
  | [] => 0
  | ri :: rest =>
      (if decide (recipe_id ri = rid /\ berry_name ri = n)
       then count ri else 0)
      + asked rest rid n
  end.

(** An action that writes no negative quantity: any action but the
    import of a frame with a negative quantity. *)
Definition clean (a : Action) : Prop :=
  match a with
  | ConfirmImport imported_df => Forall (fun row => 0 <= snd row) imported_df
  | _ => True
  end.

(** The sessions reached through clean actions only. *)
Inductive clean_reachable (db0 : DB) : Session -> Prop :=
| clean_init :
    clean_reachable db0 {| database := init_db db0; filters := None |}
| clean_step s a :
    clean_reachable db0 s -> enabled s a -> clean a ->
    clean_reachable db0 (step s a).

(** The same filters with the other ranking mode. *)
Definition other_mode (f : Filters) : Filters :=
  {| flavors := flavors f; stats := stats f; prio := negb (prio f) |}.

(** ** A small database *)

(** A catalog file as the build script leaves it: one recipe, R1, that
    needs two Apple and one Pear, and no inventory table yet. *)
Definition R1 : Recipe :=
  {| r_id := 1; ingredients := "Apple, Apple, Pear"; stars := 3;
     final_calories := 300; final_boost := 10; num_berries := 3;
     sweet := 500; spicy := 0; sour := 40; bitter := 0; fresh := 20;
     flavor_sum := 560 |}.

Definition catalog_file : DB :=
  {| recipes := [R1];
     recipe_items := [mkItem 1 "Apple" 2; mkItem 1 "Pear" 1];
     user_inventory := ∅ |}.

(** The same file with five Apple and no Pear in stock. *)
Definition pantry : DB :=
  {| recipes := recipes catalog_file;
     recipe_items := recipe_items catalog_file;
     user_inventory := {[ "Apple"%string := 5; "Pear"%string := 0 ]} |}.

(** A file whose item rows name Apple twice for recipe 1, with five
    Apple in stock. *)
Definition apple_twice : DB :=
  {| recipes := [R1];
     recipe_items := [mkItem 1 "Apple" 2; mkItem 1 "Apple" 2];
     user_inventory := {[ "Apple"%string := 5 ]} |}.

(** A file with a second recipe, R2, that needs one Plum and shares no
    berry with R1. *)
Definition R2 : Recipe :=
  {| r_id := 2; ingredients := "Plum"; stars := 4;
     final_calories := 250; final_boost := 20; num_berries := 1;
     sweet := 100; spicy := 30; sour := 600; bitter := 0; fresh := 0;
     flavor_sum := 730 |}.

Definition orchard : DB :=
  {| recipes := [R1; R2];
     recipe_items := [mkItem 1 "Apple" 2; mkItem 1 "Pear" 1; mkItem 2 "Plum" 1];
     user_inventory :=
       {[ "Apple"%string := 5; "Pear"%string := 1; "Plum"%string := 2 ]} |}.

(** * Inventory: decrement and cook *)

Lemma lookup_decrement (inv : gmap string Z) (name n : string) (d : Z) :
  decrement inv name d !! n =
  if decide (name = n)
  then (fun q => Z.max 0 (q - d)) <$> inv !! n
  else inv !! n.
Proof.
  unfold decrement. rewrite lookup_alter.
  destruct (decide (name = n)) as [->|]; reflexivity.
Qed.

Lemma deduct_cons (inv : gmap string Z) (row : string * Z) rows :
  deduct inv (row :: rows) = deduct (decrement inv (fst row) (snd row)) rows.
Proof. reflexivity. Qed.

(** A name the rows do not mention keeps its entry, or its absence. *)
Lemma lookup_deduct_other rows : forall (inv : gmap string Z) (n : string),
  ~ In n (map fst rows) -> deduct inv rows !! n = inv !! n.
Proof.
  induction rows as [|[name c] rows IH]; intros inv n Hn.
  - reflexivity.
  - rewrite deduct_cons, IH by (intros H; apply Hn; right; exact H).
    rewrite lookup_decrement. simpl.
    destruct (decide (name = n)) as [->|]; [|reflexivity].
    exfalso. apply Hn. left. reflexivity.
Qed.

(** A name that occurs once is decremented once. *)
Lemma lookup_deduct_once rows : forall (inv : gmap string Z) (n : string) (c : Z),
  NoDup (map fst rows) -> In (n, c) rows ->
  deduct inv rows !! n = (fun q => Z.max 0 (q - c)) <$> inv !! n.
Proof.
  induction rows as [|[name c'] rows IH]; intros inv n c Hnd Hin.
  - destruct Hin.
  - simpl in Hnd. apply NoDup_cons in Hnd as [Hfresh Hnd].
    rewrite deduct_cons. simpl. destruct Hin as [Heq|Hin].
    + inversion Heq; subst.
      rewrite lookup_deduct_other.
      * rewrite lookup_decrement, decide_True by reflexivity. reflexivity.
      * intros H. apply Hfresh. apply list_elem_of_In. exact H.
    + rewrite (IH _ n c Hnd Hin), lookup_decrement.
      destruct (decide (name = n)) as [->|]; [|reflexivity].
      exfalso. apply Hfresh. apply list_elem_of_In.
      apply (in_map fst) in Hin. exact Hin.
Qed.

Lemma dom_decrement (inv : gmap string Z) (name : string) (d : Z) :
  dom (decrement inv name d) = dom inv.
Proof.
  apply set_eq. intros n. rewrite !elem_of_dom, lookup_decrement.
  destruct (decide (name = n)); [|reflexivity].
  rewrite fmap_is_Some. reflexivity.
Qed.

Lemma dom_deduct rows : forall inv : gmap string Z,
  dom (deduct inv rows) = dom inv.
Proof.
  induction rows as [|row rows IH]; intros inv.
  - reflexivity.
  - rewrite deduct_cons, IH. apply dom_decrement.
Qed.

Lemma decrement_nonneg (inv : gmap string Z) (name : string) (d : Z) :
  nonneg inv -> nonneg (decrement inv name d).
Proof.
  intros Hinv n q. rewrite lookup_decrement.
  destruct (decide (name = n)) as [->|]; [|apply Hinv].
  destruct (inv !! n); simpl; intros H; inversion H. lia.
Qed.

Lemma deduct_nonneg rows : forall inv : gmap string Z,
  nonneg inv -> nonneg (deduct inv rows).
Proof.
  induction rows as [|row rows IH]; intros inv Hinv.
  - exact Hinv.
  - rewrite deduct_cons. apply IH, decrement_nonneg, Hinv.
Qed.

Example init_db_seeds_zero :
  user_inventory (init_db catalog_file)
  = {[ "Apple"%string := 0; "Pear"%string := 0 ]}.
Proof. vm_compute. reflexivity. Qed.

Example edit_reaches_pantry :
  save_inventory (init_db catalog_file) [("Apple"%string, 5)] = pantry.
Proof. vm_compute. reflexivity. Qed.

Example cook_R1_after_a_pear :
  user_inventory (cook_recipe (save_inventory pantry [("Pear"%string, 1)]) 1)
  = {[ "Apple"%string := 3; "Pear"%string := 0 ]}.
Proof. vm_compute. reflexivity. Qed.

(** C3: for a name stored with quantity [q] and any amount [d], the
    decrement statement leaves [max 0 (q - d)] in the row, which is what
    a later read returns and is never negative, however large [d] is.
    [decrement] is a total function: there is no input on which the
    statement fails. *)
Theorem decrement_floor (inv : gmap string Z) (name : string) (q d : Z) :
  inv !! name = Some q ->
  decrement inv name d !! name = Some (Z.max 0 (q - d))
  /\ inventory_quantity (decrement inv name d) name = Z.max 0 (q - d)
  /\ 0 <= inventory_quantity (decrement inv name d) name.
Proof.
  intros Hq.
  assert (Hrow : decrement inv name d !! name = Some (Z.max 0 (q - d))).
  { rewrite lookup_decrement, decide_True, Hq by reflexivity. reflexivity. }
  unfold inventory_quantity. rewrite Hrow. simpl.
  repeat split; lia.
Qed.

Lemma decrement_floor_witness :
  decrement (user_inventory pantry) "Apple" 7 !! "Apple"%string
  = Some (Z.max 0 (5 - 7))
  /\ inventory_quantity (decrement (user_inventory pantry) "Apple" 7) "Apple"
     = Z.max 0 (5 - 7)
  /\ 0 <= inventory_quantity (decrement (user_inventory pantry) "Apple" 7) "Apple".
Proof.
  apply (decrement_floor (user_inventory pantry) "Apple" 5 7).
  vm_compute. reflexivity.
Defined.

(** C10: decrementing a name with no inventory row changes nothing: the
    table after the statement is the table before it, so no row is
    created and no quantity moves.  The set of stored names is the same
    after any decrement and after any call of [cook_recipe]. *)
Theorem decrement_missing (db : DB) (name : string) (d : Z) (rid : Z) :
  user_inventory db !! name = None ->
  decrement (user_inventory db) name d = user_inventory db
  /\ (forall n amount,
         dom (decrement (user_inventory db) n amount) = dom (user_inventory db))
  /\ dom (user_inventory (cook_recipe db rid)) = dom (user_inventory db).
Proof.
  intros Hnone. split; [|split].
  - apply map_eq. intros n. rewrite lookup_decrement.
    destruct (decide (name = n)) as [<-|]; [|reflexivity].
    rewrite Hnone. reflexivity.
  - intros n amount. apply dom_decrement.
  - apply dom_deduct.
Qed.

Lemma decrement_missing_witness :
  decrement (user_inventory pantry) "Durian" 4 = user_inventory pantry
  /\ (forall n amount,
         dom (decrement (user_inventory pantry) n amount)
         = dom (user_inventory pantry))
  /\ dom (user_inventory (cook_recipe pantry 1)) = dom (user_inventory pantry).
Proof.
  apply (decrement_missing pantry "Durian" 4 1).
  vm_compute. reflexivity.
Defined.

(** The stored form of cook consistency: each listed name that has a row
    gets the clamped difference, and a listed name without a row stays
    without one. *)
Lemma cook_recipe_lookup (db : DB) (rid : Z) (n : string) (c : Z) :
  NoDup (map fst (select_items db rid)) ->
  In (n, c) (select_items db rid) ->
  user_inventory (cook_recipe db rid) !! n
  = (fun q => Z.max 0 (q - c)) <$> user_inventory db !! n.
Proof. intros Hnd Hin. simpl. apply lookup_deduct_once; assumption. Qed.

(** * Cooking an id the catalog does not list *)

Lemma select_items_unknown (db : DB) (rid : Z) :
  items_belong db -> ~ In rid (map r_id (recipes db)) ->
  select_items db rid = [].
Proof.
  intros Hbelong Hrid. unfold select_items.
  assert (Hnone : forall l, (forall ri, In ri l -> In ri (recipe_items db)) ->
            List.filter (fun ri => recipe_id ri =? rid) l = []).
  { induction l as [|ri l IH]; intros Hsub; [reflexivity|].
    simpl. destruct (Z.eqb_spec (recipe_id ri) rid) as [Heq|_].
    - exfalso. apply Hrid. rewrite <- Heq. apply Hbelong, Hsub. left. reflexivity.
    - apply IH. intros ri' Hin. apply Hsub. right. exact Hin. }
  rewrite Hnone; [reflexivity|]. intros ri Hin. exact Hin.
Qed.

(** C6, as stated, fails: 7 is not an id of the catalog, and the call
    returns instead of raising NotFoundError. *)
Lemma cook_unknown_id_does_not_raise :
  ~ In 7 (map r_id (recipes pantry))
  /\ cook pantry 7 = Returned pantry
  /\ cook pantry 7 <> Raised NotFoundError.
Proof.
  split; [|split].
  - simpl. intros [H|[]]. discriminate H.
  - vm_compute. reflexivity.
  - discriminate.
Qed.

(** C6, amended: for an id absent from the catalog, in a database whose
    item rows all belong to catalog recipes, the call returns without an
    error and hands back the database unchanged: tables and every
    inventory quantity are as before. *)
Theorem cook_unknown_id (db : DB) (rid : Z) :
  items_belong db ->
  ~ In rid (map r_id (recipes db)) ->
  cook db rid = Returned db
  /\ user_inventory (cook_recipe db rid) = user_inventory db.
Proof.
  intros Hbelong Hrid. unfold cook, cook_recipe.
  rewrite (select_items_unknown db rid Hbelong Hrid). simpl.
  split; [|reflexivity]. destruct db; reflexivity.
Qed.

Lemma cook_unknown_id_witness :
  cook pantry 7 = Returned pantry
  /\ user_inventory (cook_recipe pantry 7) = user_inventory pantry.
Proof.
  apply (cook_unknown_id pantry 7).
  - intros ri [<-|[<-|[]]]; left; reflexivity.
  - simpl. intros [H|[]]. discriminate H.
Defined.

(** * Non-negative quantities *)

Lemma insert_or_ignore_nonneg (inv : gmap string Z) (name : string) :
  nonneg inv -> nonneg (insert_or_ignore inv name).
Proof.
  intros Hinv. unfold insert_or_ignore.
  destruct (inv !! name) eqn:Hrow; [exact Hinv|].
  intros n q. rewrite lookup_insert.
  destruct (decide (name = n)); [|apply Hinv].
  intros H. inversion H. lia.
Qed.

(** Seeding keeps quantities non-negative. *)
Lemma init_db_nonneg (db : DB) :
  nonneg (user_inventory db) -> nonneg (user_inventory (init_db db)).
Proof.
  intros Hinv. unfold init_db.
  destruct (decide (size (user_inventory db) = 0%nat)); [|exact Hinv].
  simpl. revert Hinv. generalize (user_inventory db).
  induction (distinct_berries db) as [|b bs IH]; intros inv Hinv.
  - exact Hinv.
  - simpl. apply IH, insert_or_ignore_nonneg, Hinv.
Qed.

(** Cooking keeps quantities non-negative. *)
Lemma cook_recipe_nonneg (db : DB) (rid : Z) :
  nonneg (user_inventory db) -> nonneg (user_inventory (cook_recipe db rid)).
Proof. intros Hinv. simpl. apply deduct_nonneg, Hinv. Qed.

(** The two ways a save ends: every quantity was bound and the rows
    were written in frame order, or one was refused and nothing changed. *)
Lemma save_inventory_cases (db : DB) (df : DataFrame) :
  (forallb (fun row => sqlite_integer (snd row)) df = true
   /\ save_inventory db df
      = mkDB (recipes db) (recipe_items db)
             (fold_left update_quantity df (user_inventory db)))
  \/ (forallb (fun row => sqlite_integer (snd row)) df = false
      /\ save_inventory db df = db).
Proof.
  unfold save_inventory.
  destruct (forallb (fun row => sqlite_integer (snd row)) df);
    [left|right]; split; reflexivity.
Qed.

Lemma save_inventory_tables (db : DB) (df : DataFrame) :
  recipes (save_inventory db df) = recipes db
  /\ recipe_items (save_inventory db df) = recipe_items db.
Proof.
  destruct (save_inventory_cases db df) as [[_ ->]|[_ ->]]; split; reflexivity.
Qed.

(** Saving a frame keeps quantities non-negative when the frame holds no
    negative quantity. *)
Lemma save_inventory_nonneg (db : DB) (df : DataFrame) :
  Forall (fun row => 0 <= snd row) df ->
  nonneg (user_inventory db) -> nonneg (user_inventory (save_inventory db df)).
Proof.
  intros Hdf Hinv.
  destruct (save_inventory_cases db df) as [[_ ->]|[_ ->]]; [|exact Hinv].
  simpl. revert Hinv. generalize (user_inventory db).
  induction Hdf as [|row df Hrow _ IH]; intros inv Hinv.
  - exact Hinv.
  - simpl. apply IH. intros n q. unfold update_quantity.
    rewrite lookup_alter.
    destruct (decide (row.1 = n)) as [->|]; [|apply Hinv].
    destruct (inv !! n); simpl; intros H; inversion H. lia.
Qed.

(** Every enabled action other than an import keeps quantities
    non-negative, and so does an import of a frame without a negative
    quantity. *)
Lemma step_nonneg (s : Session) (a : Action) :
  enabled s a ->
  match a with
  | ConfirmImport imported_df => Forall (fun row => 0 <= snd row) imported_df
  | _ => True
  end ->
  nonneg (user_inventory (database s)) ->
  nonneg (user_inventory (database (step s a))).
Proof.
  destruct a as [imported_df|edited_df|f|rid]; intros Hen Hdf Hinv.
  - apply save_inventory_nonneg; assumption.
  - apply save_inventory_nonneg; [|assumption].
    simpl in Hen. eapply Forall_impl; [exact Hen|].
    intros row Hrow. simpl in Hrow. lia.
  - exact Hinv.
  - apply cook_recipe_nonneg, Hinv.
Qed.

(** C7, the import path: from the seeded catalog file, confirming the
    import of a frame whose Apple row carries -5 is an enabled action,
    and the session it leads to stores -5 for Apple. *)
Theorem import_stores_negative :
  reachable catalog_file
    (step {| database := init_db catalog_file; filters := None |}
          (ConfirmImport [("Apple"%string, -5)]))
  /\ user_inventory
       (database
          (step {| database := init_db catalog_file; filters := None |}
                (ConfirmImport [("Apple"%string, -5)])))
     !! "Apple"%string = Some (-5)
  /\ ~ nonneg
       (user_inventory
          (database
             (step {| database := init_db catalog_file; filters := None |}
                   (ConfirmImport [("Apple"%string, -5)])))).
Proof.
  assert (Hrow : user_inventory
       (database
          (step {| database := init_db catalog_file; filters := None |}
                (ConfirmImport [("Apple"%string, -5)])))
     !! "Apple"%string = Some (-5)) by (vm_compute; reflexivity).
  split; [|split].
  - apply reach_step; [apply reach_init|exact I].
  - exact Hrow.
  - intros Hnn. specialize (Hnn _ _ Hrow). lia.
Qed.

(** * Craftability *)

Lemma filter_nil_iff {A : Type} (p : A -> bool) (l : list A) :
  List.filter p l = [] <-> forall x, In x l -> p x = false.
Proof.
  induction l as [|a l IH]; simpl.
  - split; [intros _ x []|reflexivity].
  - destruct (p a) eqn:Hpa.
    + split; [discriminate|].
      intros H. specialize (H a (or_introl eq_refl)). congruence.
    + rewrite IH. split.
      * intros H x [<-|Hin]; [exact Hpa|apply H, Hin].
      * intros H x Hin. apply H. right. exact Hin.
Qed.

Lemma in_select_items (db : DB) (rid : Z) (n : string) (c : Z) :
  In (n, c) (select_items db rid) <->
  exists ri, In ri (recipe_items db)
             /\ recipe_id ri = rid /\ berry_name ri = n /\ count ri = c.
Proof.
  unfold select_items. rewrite in_map_iff. split.
  - intros [ri [Heq Hin]]. apply filter_In in Hin as [Hin Hid].
    inversion Heq; subst. exists ri.
    apply Z.eqb_eq in Hid. repeat split; assumption.
  - intros [ri [Hin [Hid [Hn Hc]]]]. exists ri. split.
    + rewrite Hn, Hc. reflexivity.
    + apply filter_In. split; [exact Hin|]. apply Z.eqb_eq, Hid.
Qed.

(** The NOT EXISTS holds exactly when every item row of the recipe asks
    for no more than the quantity read for its berry. *)
Lemma craftable_spec (db : DB) (r : Recipe) :
  craftable db r = true <->
  forall n c, In (n, c) (select_items db (r_id r)) ->
              c <= inventory_quantity (user_inventory db) n.
Proof.
  unfold craftable.
  transitivity (short_rows db r = []).
  { destruct (short_rows db r); split; congruence. }
  unfold short_rows. rewrite filter_nil_iff. unfold left_join. split.
  - intros H n c Hin. apply in_select_items in Hin as [ri [Hin [Hid [Hn Hc]]]].
    specialize (H (ri, user_inventory db !! berry_name ri)).
    simpl in H. rewrite in_map_iff in H.
    assert (Hfalse := H (ex_intro _ ri (conj eq_refl Hin))).
    apply Z.eqb_eq in Hid. rewrite Hid in Hfalse. simpl in Hfalse.
    unfold inventory_quantity. subst n c.
    destruct (Z.gtb_spec (count ri) (ifnull (user_inventory db !! berry_name ri) 0));
      [discriminate|lia].
  - intros H row Hin. apply in_map_iff in Hin as [ri [<- Hin]]. simpl.
    destruct (Z.eqb_spec (recipe_id ri) (r_id r)) as [Hid|]; [|reflexivity].
    simpl. specialize (H (berry_name ri) (count ri)).
    unfold inventory_quantity in H.
    destruct (Z.gtb_spec (count ri) (ifnull (user_inventory db !! berry_name ri) 0));
      [|reflexivity].
    assert (count ri <= ifnull (user_inventory db !! berry_name ri) 0); [|lia].
    apply H. apply in_select_items. exists ri. repeat split; assumption.
Qed.

Lemma in_qualifying (db : DB) (f : Filters) (r : Recipe) :
  In r (qualifying db f) <->
  In r (recipes db) /\ craftable db r = true /\ where_sql f r = true.
Proof.
  unfold qualifying. rewrite filter_In, andb_true_iff. reflexivity.
Qed.

(** The NOT EXISTS, read off the two tables: every row of
    [recipe_items] that carries the recipe's id asks for no more than
    the quantity stored under its berry name, a name without a row
    counting as 0. *)
Lemma craftable_rows (db : DB) (r : Recipe) :
  craftable db r = true <->
  forall ri, In ri (recipe_items db) -> recipe_id ri = r_id r ->
             count ri <= default 0 (user_inventory db !! berry_name ri).
Proof.
  rewrite craftable_spec. unfold inventory_quantity. split.
  - intros H ri Hin Hid.
    assert (Hrow : In (berry_name ri, count ri) (select_items db (r_id r))).
    { apply in_select_items. exists ri. repeat split; assumption. }
    specialize (H _ _ Hrow).
    destruct (user_inventory db !! berry_name ri); exact H.
  - intros H n c Hin.
    apply in_select_items in Hin as [ri [Hin [Hid [<- <-]]]].
    specialize (H ri Hin Hid).
    destruct (user_inventory db !! berry_name ri); exact H.
Qed.

(** C1: a recipe satisfies the NOT EXISTS of the search query exactly
    when, for every row of [recipe_items] that belongs to it, the
    quantity stored in [user_inventory] under the row's berry name, or
    0 when no row is stored under that name, is at least the row's
    required count; hence a catalog recipe is selected by the query
    without range filters exactly under that condition, and a recipe
    without item rows is craftable under every inventory. *)
Theorem craftable_iff (db : DB) (r : Recipe) :
  (craftable db r = true <->
   forall ri, In ri (recipe_items db) -> recipe_id ri = r_id r ->
              default 0 (user_inventory db !! berry_name ri) >= count ri)
  /\ (forall p,
         In r (qualifying db {| flavors := []; stats := None; prio := p |}) <->
         In r (recipes db)
         /\ forall ri, In ri (recipe_items db) -> recipe_id ri = r_id r ->
                       default 0 (user_inventory db !! berry_name ri) >= count ri)
  /\ ((forall ri, In ri (recipe_items db) -> recipe_id ri <> r_id r) ->
      craftable db r = true).
Proof.
  assert (Hge : craftable db r = true <->
   forall ri, In ri (recipe_items db) -> recipe_id ri = r_id r ->
              default 0 (user_inventory db !! berry_name ri) >= count ri).
  { rewrite craftable_rows.
    split; intros H ri Hin Hid; specialize (H ri Hin Hid); lia. }
  split; [exact Hge|split].
  - intros p. rewrite in_qualifying, Hge. simpl.
    split; [intros [Hin [H _]]|intros [Hin H]]; repeat split; assumption.
  - intros Hnone. apply Hge. intros ri Hin Hid.
    exfalso. exact (Hnone ri Hin Hid).
Qed.

Example stored_quantity_decides :
  craftable orchard R1 = true
  /\ craftable pantry R1 = false
  /\ craftable (mkDB [R1] (recipe_items catalog_file) ∅) R1 = false.
Proof. vm_compute. repeat split; reflexivity. Qed.

(** C8: with the catalog fixed, a recipe craftable under an inventory is
    craftable under every inventory that reads at least as much for
    every name. *)
Theorem craftable_monotone (cat : list Recipe) (items : list RecipeItem)
    (I I' : gmap string Z) (r : Recipe) :
  (forall n, inventory_quantity I n <= inventory_quantity I' n) ->
  craftable (mkDB cat items I) r = true ->
  craftable (mkDB cat items I') r = true.
Proof.
  intros Hle. rewrite !craftable_spec. simpl.
  intros H n c Hin.
  assert (Hsame : In (n, c) (select_items (mkDB cat items I) (r_id r))) by exact Hin.
  specialize (H n c Hsame). specialize (Hle n). lia.
Qed.

Lemma craftable_monotone_witness :
  craftable (mkDB [R1] (recipe_items catalog_file)
                  {[ "Apple"%string := 6; "Pear"%string := 1 ]}) R1 = true.
Proof.
  apply (craftable_monotone [R1] (recipe_items catalog_file)
           {[ "Apple"%string := 2; "Pear"%string := 1 ]}
           {[ "Apple"%string := 6; "Pear"%string := 1 ]} R1).
  - intros n. unfold inventory_quantity.
    destruct (decide (n = "Apple"%string)) as [->|Ha]; [vm_compute; discriminate|].
    destruct (decide (n = "Pear"%string)) as [->|Hp]; [vm_compute; discriminate|].
    rewrite !lookup_insert_ne, !lookup_singleton_ne by congruence.
    simpl. lia.
  - vm_compute. reflexivity.
Defined.

Example R1_not_craftable_in_pantry : craftable pantry R1 = false.
Proof. vm_compute. reflexivity. Qed.

Example R1_craftable_with_a_pear :
  craftable (save_inventory pantry [("Pear"%string, 1)]) R1 = true.
Proof. vm_compute. reflexivity. Qed.

(** * Cook consistency *)

Lemma select_items_names (db : DB) (rid : Z) :
  map fst (select_items db rid)
  = map berry_name
      (List.filter (fun ri => recipe_id ri =? rid) (recipe_items db)).
Proof. unfold select_items. rewrite map_map. reflexivity. Qed.

(** C2: take a recipe id whose rows in [recipe_items] name no berry
    twice and ask positive counts.  After [cook_recipe] each of these
    rows finds under its berry name the quantity [max 0 (q - c)], where
    [q] was the quantity stored before and [c] is the row's count (a
    name without a row reads as 0 before and after), and every name
    that none of these rows carries has the entry it had. *)
Theorem cook_consistency (db : DB) (rid : Z) :
  NoDup (map berry_name
           (List.filter (fun ri => recipe_id ri =? rid) (recipe_items db))) ->
  (forall ri, In ri (recipe_items db) -> recipe_id ri = rid -> 0 < count ri) ->
  (forall ri, In ri (recipe_items db) -> recipe_id ri = rid ->
      user_inventory (cook_recipe db rid) !! berry_name ri
      = (fun q => Z.max 0 (q - count ri)) <$> user_inventory db !! berry_name ri
      /\ default 0 (user_inventory (cook_recipe db rid) !! berry_name ri)
         = Z.max 0 (default 0 (user_inventory db !! berry_name ri) - count ri))
  /\ (forall n,
         (forall ri, In ri (recipe_items db) -> recipe_id ri = rid ->
                     berry_name ri <> n) ->
         user_inventory (cook_recipe db rid) !! n = user_inventory db !! n).
Proof.
  intros Hnd Hpos. rewrite <- select_items_names in Hnd. split.
  - intros ri Hin Hid.
    assert (Hrow : In (berry_name ri, count ri) (select_items db rid)).
    { apply in_select_items. exists ri. repeat split; assumption. }
    assert (Hc := Hpos ri Hin Hid).
    rewrite (cook_recipe_lookup db rid _ _ Hnd Hrow).
    split; [reflexivity|].
    destruct (user_inventory db !! berry_name ri); simpl; lia.
  - intros n Hn. simpl. apply lookup_deduct_other.
    intros Hin. apply in_map_iff in Hin as [[n' c] [Heq Hin]].
    simpl in Heq. subst n'.
    apply in_select_items in Hin as [ri [Hin [Hid [Hname _]]]].
    exact (Hn ri Hin Hid Hname).
Qed.

Lemma cook_consistency_witness :
  user_inventory (cook_recipe orchard 1) !! "Apple"%string = Some 3
  /\ user_inventory (cook_recipe orchard 1) !! "Pear"%string = Some 0
  /\ user_inventory (cook_recipe orchard 1) !! "Plum"%string = Some 2.
Proof.
  assert (Hnd : NoDup (map berry_name
            (List.filter (fun ri => recipe_id ri =? 1) (recipe_items orchard)))).
  { simpl. apply NoDup_cons. split.
    - intros H. apply list_elem_of_In in H. destruct H as [H|[]]. discriminate H.
    - apply NoDup_cons. split; [|constructor].
      intros H. apply list_elem_of_In in H. destruct H. }
  assert (Hpos : forall ri, In ri (recipe_items orchard) -> recipe_id ri = 1 ->
                            0 < count ri).
  { intros ri [<-|[<-|[<-|[]]]] _; simpl; lia. }
  destruct (cook_consistency orchard 1 Hnd Hpos) as [Hrows Hrest].
  split; [|split].
  - exact (proj1 (Hrows (mkItem 1 "Apple" 2) (or_introl eq_refl) eq_refl)).
  - exact (proj1 (Hrows (mkItem 1 "Pear" 1)
                    (or_intror (or_introl eq_refl)) eq_refl)).
  - apply (Hrest "Plum"%string).
    intros ri [<-|[<-|[<-|[]]]] Hid; simpl in *; [discriminate|discriminate|lia].
Defined.

(** * The range filters *)

Lemma between_spec (x min_v max_v : Z) :
  between x min_v max_v = true <-> min_v <= x <= max_v.
Proof.
  unfold between. rewrite andb_true_iff, !Z.leb_le. reflexivity.
Qed.

Lemma in_where_clauses (f : Filters) (clause : Recipe -> bool) :
  In clause (where_clauses f) <->
  (exists col min_v max_v,
      In (col, (min_v, max_v)) (flavors f)
      /\ clause = fun r => between (flavor_column col r) min_v max_v)
  \/ (exists col min_v max_v,
         stats f = Some (col, min_v, max_v)
         /\ clause = fun r => between (stat_column col r) min_v max_v).
Proof.
  unfold where_clauses. rewrite in_app_iff, in_map_iff. split.
  - intros [[[col [min_v max_v]] [Heq Hin]]|Hstat].
    + left. exists col, min_v, max_v. split; [exact Hin|]. symmetry. exact Heq.
    + right. destruct (stats f) as [[[col min_v] max_v]|]; [|destruct Hstat].
      destruct Hstat as [Heq|[]]. exists col, min_v, max_v.
      split; [reflexivity|]. symmetry. exact Heq.
  - intros [[col [min_v [max_v [Hin Heq]]]]|[col [min_v [max_v [Hst Heq]]]]].
    + left. exists (col, (min_v, max_v)). split; [|exact Hin].
      symmetry. exact Heq.
    + right. rewrite Hst. left. symmetry. exact Heq.
Qed.

(** The generated WHERE conditions, read through the column selectors. *)
Lemma where_sql_columns (f : Filters) (r : Recipe) :
  where_sql f r = true <->
  (forall col min_v max_v,
      In (col, (min_v, max_v)) (flavors f) ->
      min_v <= flavor_column col r <= max_v)
  /\ (forall col min_v max_v,
         stats f = Some (col, min_v, max_v) ->
         min_v <= stat_column col r <= max_v).
Proof.
  unfold where_sql. rewrite forallb_forall. split.
  - intros H. split; intros col min_v max_v Hin; apply between_spec.
    + apply (H (fun r => between (flavor_column col r) min_v max_v)).
      apply in_where_clauses. left. exists col, min_v, max_v. split; trivial.
    + apply (H (fun r => between (stat_column col r) min_v max_v)).
      apply in_where_clauses. right. exists col, min_v, max_v. split; trivial.
  - intros [Hfl Hst] clause Hin.
    apply in_where_clauses in Hin
      as [[col [min_v [max_v [Hin ->]]]]|[col [min_v [max_v [Hin ->]]]]];
      apply between_spec; [apply Hfl|apply Hst]; exact Hin.
Qed.

(** The generated WHERE conditions mean what the filter predicate says
    of the recipe's own columns. *)
Lemma where_sql_passes (f : Filters) (r : Recipe) :
  where_sql f r = true <-> passes f r.
Proof.
  rewrite where_sql_columns. unfold passes. split.
  - intros [Hfl Hst].
    split; [intros min_v max_v Hin; exact (Hfl Sweet _ _ Hin)|].
    split; [intros min_v max_v Hin; exact (Hfl Spicy _ _ Hin)|].
    split; [intros min_v max_v Hin; exact (Hfl Sour _ _ Hin)|].
    split; [intros min_v max_v Hin; exact (Hfl Bitter _ _ Hin)|].
    split; [intros min_v max_v Hin; exact (Hfl Fresh _ _ Hin)|].
    split; [intros min_v max_v Hin; exact (Hst Stars _ _ Hin)|].
    split; [intros min_v max_v Hin; exact (Hst FlavorSum _ _ Hin)|].
    split; [intros min_v max_v Hin; exact (Hst FinalBoost _ _ Hin)|].
    intros min_v max_v Hin; exact (Hst FinalCalories _ _ Hin).
  - intros (Hsweet & Hspicy & Hsour & Hbitter & Hfresh
            & Hstars & Hsum & Hboost & Hcal).
    split; intros [] min_v max_v Hin; simpl; auto.
Qed.

(** C4: a recipe satisfies the generated WHERE conditions exactly when
    every range entered for a flavor holds the recipe's value in that
    flavor's column, bounds included, and the stat range, when one is
    set, holds the recipe's value in that stat's column, bounds
    included.  A value equal to the lower or the upper bound of a range
    is inside it, and with no range entered and no stat set every recipe
    passes. *)
Theorem where_sql_iff (f : Filters) (r : Recipe) :
  (where_sql f r = true <-> passes f r)
  /\ (forall min_v max_v, min_v <= max_v ->
         between min_v min_v max_v = true /\ between max_v min_v max_v = true)
  /\ (flavors f = [] -> stats f = None -> where_sql f r = true).
Proof.
  split; [apply where_sql_passes|split].
  - intros min_v max_v Hle. rewrite !between_spec. lia.
  - intros Hfl Hst. apply where_sql_columns. split; intros col min_v max_v Hin.
    + rewrite Hfl in Hin. destruct Hin.
    + rewrite Hst in Hin. discriminate Hin.
Qed.

Example each_column_is_read :
  where_sql {| flavors := [(Sour, (40, 40))]; stats := Some (FinalBoost, 10, 10);
               prio := true |} R1 = true
  /\ where_sql {| flavors := [(Sour, (41, 60))]; stats := None;
                  prio := true |} R1 = false
  /\ where_sql {| flavors := []; stats := Some (FinalBoost, 11, 20);
                  prio := true |} R1 = false.
Proof. repeat split; reflexivity. Qed.

Example sweet_range_includes_bounds :
  where_sql {| flavors := [(Sweet, (500, 760))]; stats := Some (Stars, 0, 3);
               prio := true |} R1 = true.
Proof. reflexivity. Qed.

Example sweet_range_excludes_below :
  where_sql {| flavors := [(Sweet, (501, 760))]; stats := None;
               prio := true |} R1 = false.
Proof. reflexivity. Qed.

(** * Ordering and the limit *)

Lemma row_leb_ranked (f : Filters) (a b : Recipe) :
  row_leb (order_by f) a b = true <-> ranked (prio f) a b.
Proof.
  unfold row_leb, order_by, ranked. destruct (prio f); simpl.
  - destruct (Z.compare_spec (num_berries a) (num_berries b));
      destruct (Z.compare_spec (final_calories b) (final_calories a));
      split; intros Hr; try reflexivity; try discriminate Hr; lia.
  - destruct (Z.compare_spec (final_calories b) (final_calories a));
      destruct (Z.compare_spec (stars b) (stars a));
      split; intros Hr; try reflexivity; try discriminate Hr; lia.
Qed.

Lemma ranked_total (p : bool) (a b : Recipe) : ranked p a b \/ ranked p b a.
Proof. unfold ranked. destruct p; lia. Qed.

Lemma ranked_trans (p : bool) (a b c : Recipe) :
  ranked p a b -> ranked p b c -> ranked p a c.
Proof. unfold ranked. destruct p; lia. Qed.

Section Sorter.
Variable leb : Recipe -> Recipe -> bool.
Variable le : Recipe -> Recipe -> Prop.
Hypothesis leb_le : forall a b, leb a b = true <-> le a b.
Hypothesis le_total : forall a b, le a b \/ le b a.
Hypothesis le_trans : forall a b c, le a b -> le b c -> le a c.

Lemma insert_row_perm (x : Recipe) (l : list Recipe) :
  Permutation (insert_row leb x l) (x :: l).
Proof.
  induction l as [|y l IH]; simpl.
  - reflexivity.
  - destruct (leb x y); [reflexivity|].
    rewrite IH. apply perm_swap.
Qed.

Lemma sort_rows_perm (l : list Recipe) : Permutation (sort_rows leb l) l.
Proof.
  induction l as [|x l IH]; simpl.
  - reflexivity.
  - rewrite insert_row_perm, IH. reflexivity.
Qed.

Lemma insert_row_sorted (x : Recipe) (l : list Recipe) :
  StronglySorted le l -> StronglySorted le (insert_row leb x l).
Proof.
  induction 1 as [|y l Hs IH Hy]; simpl.
  - repeat constructor.
  - destruct (leb x y) eqn:Hxy.
    + apply leb_le in Hxy. constructor; [constructor; assumption|].
      constructor; [exact Hxy|].
      eapply List.Forall_impl; [|exact Hy].
      intros z Hz. exact (le_trans _ _ _ Hxy Hz).
    + assert (Hyx : le y x).
      { destruct (le_total x y) as [H|H]; [|exact H].
        apply leb_le in H. congruence. }
      constructor; [exact IH|].
      eapply Permutation_Forall.
      * symmetry. apply insert_row_perm.
      * constructor; assumption.
Qed.

Lemma sort_rows_sorted (l : list Recipe) : StronglySorted le (sort_rows leb l).
Proof.
  induction l as [|x l IH]; simpl.
  - constructor.
  - apply insert_row_sorted, IH.
Qed.
End Sorter.

Lemma sorted_rows_of_query (db : DB) (f : Filters) :
  Permutation (sort_rows (row_leb (order_by f)) (qualifying db f)) (qualifying db f)
  /\ StronglySorted (ranked (prio f))
       (sort_rows (row_leb (order_by f)) (qualifying db f)).
Proof.
  split.
  - apply sort_rows_perm.
  - apply (sort_rows_sorted (row_leb (order_by f)) (ranked (prio f))).
    + intros a b. apply row_leb_ranked.
    + apply ranked_total.
    + apply ranked_trans.
Qed.

Lemma filter_split {A : Type} (p : A -> bool) (l : list A) :
  Permutation (List.filter p l ++ List.filter (fun x => negb (p x)) l) l.
Proof.
  induction l as [|a l IH]; simpl; [reflexivity|].
  destruct (p a); simpl.
  - constructor. exact IH.
  - rewrite <- Permutation_middle. constructor. exact IH.
Qed.

(** C5: the catalog splits into the rows the query returns, the rows
    the limit drops and the rows the WHERE clause rejects.  Returned
    and dropped rows are exactly the recipes that are craftable (every
    item row of theirs asks for no more than the stored quantity, 0 for
    a name without a row) and inside every entered range; returned
    followed by dropped rows are ordered by the ranking rule of the
    chosen mode (fewer berries first and, among equal berry counts,
    more calories first; or more calories first and, among equal
    calories, more stars first), so every returned row may stand before
    every dropped one; and the number returned is the smaller of 50 and
    the number of qualifying rows. *)
Theorem matched_rows_ranked (db : DB) (f : Filters) :
  exists dropped rejected,
    Permutation (matched_rows db f ++ dropped ++ rejected) (recipes db)
    /\ (forall r, In r (matched_rows db f ++ dropped) ->
           (forall ri, In ri (recipe_items db) -> recipe_id ri = r_id r ->
                       default 0 (user_inventory db !! berry_name ri) >= count ri)
           /\ passes f r)
    /\ (forall r, In r rejected ->
           ~ ((forall ri, In ri (recipe_items db) -> recipe_id ri = r_id r ->
                          default 0 (user_inventory db !! berry_name ri)
                          >= count ri)
              /\ passes f r))
    /\ StronglySorted (ranked (prio f)) (matched_rows db f ++ dropped)
    /\ (forall a b, In a (matched_rows db f) -> In b dropped ->
                    ranked (prio f) a b)
    /\ length (matched_rows db f)
       = Nat.min 50 (length (matched_rows db f ++ dropped)).
Proof.
  destruct (sorted_rows_of_query db f) as [Hperm Hsorted].
  exists (skipn 50 (sort_rows (row_leb (order_by f)) (qualifying db f))).
  exists (List.filter (fun r => negb (craftable db r && where_sql f r)) (recipes db)).
  unfold matched_rows. rewrite app_assoc, firstn_skipn.
  split; [|split; [|split; [|split; [exact Hsorted|split]]]].
  - rewrite Hperm. apply filter_split.
  - intros r Hin. apply (Permutation_in r Hperm) in Hin.
    apply in_qualifying in Hin as [_ [Hcraft Hpass]].
    split; [|apply where_sql_passes, Hpass].
    intros ri Hin Hid.
    assert (Hle := proj1 (craftable_rows db r) Hcraft ri Hin Hid). lia.
  - intros r Hin [Hstock Hpass]. apply filter_In in Hin as [_ Hneg].
    assert (Hcraft : craftable db r = true).
    { apply craftable_rows. intros ri Hin Hid.
      specialize (Hstock ri Hin Hid). lia. }
    apply where_sql_passes in Hpass.
    rewrite Hcraft, Hpass in Hneg. discriminate Hneg.
  - intros a b Ha Hb.
    rewrite <- (firstn_skipn 50) in Hsorted.
    apply (StronglySorted_app_1_elem_of _ _ _ a b Hsorted);
      apply list_elem_of_In; assumption.
  - apply length_take.
Qed.

Example pear_short_recipe_is_rejected :
  matched_rows pantry {| flavors := []; stats := None; prio := true |} = []
  /\ map r_id (matched_rows orchard
                 {| flavors := [(Sour, (500, 760))]; stats := None; prio := true |})
     = [2].
Proof. vm_compute. split; reflexivity. Qed.

Example fewer_berries_first :
  map r_id
    (matched_rows
       {| recipes := [mkRecipe 5 "five" 3 300 10 5 500 0 0 0 0 500;
                      mkRecipe 3 "three" 3 300 10 3 500 0 0 0 0 500];
          recipe_items := []; user_inventory := ∅ |}
       {| flavors := [(Sweet, (420, 760))]; stats := None; prio := true |})
  = [3; 5].
Proof. reflexivity. Qed.

(** * Seeding *)

Lemma lookup_insert_or_ignore (inv : gmap string Z) (b n : string) :
  insert_or_ignore inv b !! n =
  match inv !! n with
  | Some q => Some q
  | None => if decide (b = n) then Some 0 else None
  end.
Proof.
  unfold insert_or_ignore. destruct (inv !! b) eqn:Hb.
  - destruct (inv !! n) eqn:Hn; [reflexivity|].
    destruct (decide (b = n)) as [->|]; [congruence|reflexivity].
  - rewrite lookup_insert. destruct (decide (b = n)) as [->|].
    + rewrite Hb. reflexivity.
    + destruct (inv !! n); reflexivity.
Qed.

Lemma lookup_seed names : forall (inv : gmap string Z) (n : string),
  fold_left insert_or_ignore names inv !! n =
  match inv !! n with
  | Some q => Some q
  | None => if decide (n ∈ names) then Some 0 else None
  end.
Proof.
  induction names as [|b names IH]; intros inv n; cbn [fold_left].
  - destruct (inv !! n); [reflexivity|].
    destruct (decide (n ∈ [])) as [Hin|]; [|reflexivity].
    apply not_elem_of_nil in Hin. destruct Hin.
  - rewrite IH, lookup_insert_or_ignore.
    destruct (inv !! n); [reflexivity|].
    destruct (decide (b = n)) as [->|Hne].
    + rewrite decide_True by apply list_elem_of_here. reflexivity.
    + destruct (decide (n ∈ names)) as [Hin|Hnin].
      * rewrite decide_True by (apply list_elem_of_further, Hin). reflexivity.
      * rewrite decide_False; [reflexivity|].
        intros Hin. apply elem_of_cons in Hin as [->|Hin]; [apply Hne|apply Hnin];
          trivial.
Qed.

Lemma init_db_tables (db : DB) :
  recipes (init_db db) = recipes db
  /\ recipe_items (init_db db) = recipe_items db.
Proof.
  unfold init_db. destruct (decide (size (user_inventory db) = 0%nat));
    split; reflexivity.
Qed.

Lemma lookup_init_db_empty (db : DB) (n : string) :
  user_inventory db = ∅ ->
  user_inventory (init_db db) !! n =
  if decide (n ∈ map berry_name (recipe_items db)) then Some 0 else None.
Proof.
  intros Hempty. unfold init_db.
  rewrite decide_True by (rewrite Hempty; apply map_size_empty).
  simpl. rewrite lookup_seed, Hempty, lookup_empty. unfold distinct_berries.
  destruct (decide (n ∈ map berry_name (recipe_items db))) as [Hin|Hnin].
  - rewrite decide_True by (apply elem_of_remove_dups, Hin). reflexivity.
  - rewrite decide_False; [reflexivity|].
    intros Hin. apply Hnin, elem_of_remove_dups, Hin.
Qed.

(** When [init_db] leaves a database as it is. *)
Lemma init_db_fixed_iff (db : DB) :
  init_db db = db <->
  user_inventory db <> ∅ \/ recipe_items db = [].
Proof.
  split.
  - intros Hfix.
    destruct (decide (user_inventory db = ∅)) as [Hempty|Hne]; [|left; exact Hne].
    right. destruct (recipe_items db) as [|ri items] eqn:Hitems; [reflexivity|].
    exfalso.
    assert (Hrow : user_inventory (init_db db) !! berry_name ri = Some 0).
    { rewrite (lookup_init_db_empty db _ Hempty), Hitems.
      rewrite decide_True by apply list_elem_of_here. reflexivity. }
    rewrite Hfix, Hempty, lookup_empty in Hrow. discriminate Hrow.
  - intros [Hne|Hitems]; unfold init_db.
    + rewrite decide_False; [reflexivity|].
      intros Hsize. apply Hne, map_size_empty_iff, Hsize.
    + destruct (decide (size (user_inventory db) = 0%nat)); [|reflexivity].
      unfold distinct_berries. destruct db as [cat items inv].
      simpl in *. subst items. reflexivity.
Qed.

(** After [init_db] the inventory is populated unless there was no
    berry to seed. *)
Lemma init_db_settled (db : DB) :
  user_inventory (init_db db) <> ∅ \/ recipe_items db = [].
Proof.
  destruct (decide (user_inventory db = ∅)) as [Hempty|Hne].
  - destruct (recipe_items db) as [|ri items] eqn:Hrows; [right; reflexivity|].
    left. intros Hnone.
    assert (Hrow : user_inventory (init_db db) !! berry_name ri = Some 0).
    { rewrite (lookup_init_db_empty db _ Hempty), Hrows.
      rewrite decide_True by apply list_elem_of_here. reflexivity. }
    rewrite Hnone, lookup_empty in Hrow. discriminate Hrow.
  - left. unfold init_db. rewrite decide_False; [exact Hne|].
    intros Hsize. apply Hne, map_size_empty_iff, Hsize.
Qed.

(** X1: on a database whose inventory table is empty, [init_db] stores
    quantity 0 for every berry name that occurs in [recipe_items] and
    creates no other row. *)
Theorem init_db_seeds (db : DB) (n : string) :
  user_inventory db = ∅ ->
  (In n (map berry_name (recipe_items db)) ->
   user_inventory (init_db db) !! n = Some 0)
  /\ (~ In n (map berry_name (recipe_items db)) ->
      user_inventory (init_db db) !! n = None).
Proof.
  intros Hempty. rewrite (lookup_init_db_empty db n Hempty). split; intros Hn.
  - rewrite decide_True by (apply list_elem_of_In, Hn). reflexivity.
  - rewrite decide_False; [reflexivity|].
    intros Hin. apply Hn, list_elem_of_In, Hin.
Qed.

Lemma init_db_seeds_witness :
  (In "Pear"%string (map berry_name (recipe_items catalog_file)) ->
   user_inventory (init_db catalog_file) !! "Pear"%string = Some 0)
  /\ (~ In "Pear"%string (map berry_name (recipe_items catalog_file)) ->
      user_inventory (init_db catalog_file) !! "Pear"%string = None).
Proof.
  apply (init_db_seeds catalog_file "Pear"). reflexivity.
Defined.

(** X2: running [init_db] again changes nothing: the second run finds
    either a populated inventory or no berry to seed. *)
Theorem init_db_idempotent (db : DB) :
  init_db (init_db db) = init_db db.
Proof.
  apply init_db_fixed_iff.
  destruct (init_db_tables db) as [_ Hitems]. rewrite Hitems.
  apply init_db_settled.
Qed.

(** X3: right after the seeding of an empty inventory a recipe is
    craftable only if none of its item rows asks for a positive count:
    every quantity reads as 0. *)
Theorem fresh_seed_craftable (db : DB) (r : Recipe) :
  user_inventory db = ∅ ->
  (craftable (init_db db) r = true <->
   forall n c, In (n, c) (select_items db (r_id r)) -> c <= 0).
Proof.
  intros Hempty. rewrite craftable_spec.
  assert (Hsel : select_items (init_db db) (r_id r) = select_items db (r_id r)).
  { unfold select_items. destruct (init_db_tables db) as [_ ->]. reflexivity. }
  rewrite Hsel.
  assert (Hzero : forall n, inventory_quantity (user_inventory (init_db db)) n = 0).
  { intros n. unfold inventory_quantity.
    rewrite (lookup_init_db_empty db n Hempty).
    destruct (decide (n ∈ map berry_name (recipe_items db))); reflexivity. }
  split; intros H n c Hin; specialize (H n c Hin); rewrite Hzero in *; exact H.
Qed.

Lemma fresh_seed_craftable_witness :
  craftable (init_db catalog_file) R1 = true <->
  forall n c, In (n, c) (select_items catalog_file (r_id R1)) -> c <= 0.
Proof.
  apply (fresh_seed_craftable catalog_file R1). reflexivity.
Defined.

(** * Saving a frame *)

Lemma lookup_update_quantity (inv : gmap string Z) (row : string * Z)
    (n : string) :
  update_quantity inv row !! n =
  if decide (fst row = n) then (fun _ => snd row) <$> inv !! n else inv !! n.
Proof.
  unfold update_quantity. rewrite lookup_alter.
  destruct (decide (row.1 = n)) as [->|]; reflexivity.
Qed.

Lemma lookup_saved df : forall (inv : gmap string Z) (n : string),
  fold_left update_quantity df inv !! n =
  match last_quantity df n with
  | Some q => (fun _ => q) <$> inv !! n
  | None => inv !! n
  end.
Proof.
  induction df as [|row df IH]; intros inv n; cbn [fold_left last_quantity].
  - reflexivity.
  - rewrite IH, lookup_update_quantity.
    destruct (last_quantity df n) as [q|].
    + destruct (decide (row.1 = n)); [|reflexivity].
      destruct (inv !! n); reflexivity.
    + destruct (decide (row.1 = n)); reflexivity.
Qed.

Lemma last_quantity_in df : forall (n : string) (q : Z),
  last_quantity df n = Some q -> In (n, q) df.
Proof.
  induction df as [|[name q'] df IH]; intros n q Hlast; simpl in Hlast.
  - discriminate Hlast.
  - destruct (last_quantity df n) as [q0|] eqn:Hrest.
    + right. apply IH. congruence.
    + destruct (decide (name = n)) as [->|]; [|discriminate Hlast].
      left. congruence.
Qed.

Lemma last_quantity_none df : forall n : string,
  last_quantity df n = None <-> ~ In n (map fst df).
Proof.
  induction df as [|[name q'] df IH]; intros n; simpl.
  - split; [intros _ []|reflexivity].
  - destruct (last_quantity df n) as [q0|] eqn:Hrest.
    + split; [discriminate|]. intros Hn. exfalso.
      apply Hn. right. apply last_quantity_in in Hrest.
      apply (in_map fst) in Hrest. exact Hrest.
    + destruct (decide (name = n)) as [->|Hne].
      * split; [discriminate|]. intros Hn. exfalso. apply Hn. left. reflexivity.
      * split; [|reflexivity]. intros _ [Heq|Hin]; [apply Hne, Heq|].
        apply (proj1 (IH n)); trivial.
Qed.

Lemma dom_saved df : forall inv : gmap string Z,
  dom (fold_left update_quantity df inv) = dom inv.
Proof.
  intros inv. apply set_eq. intros n. rewrite !elem_of_dom, lookup_saved.
  destruct (last_quantity df n); [|reflexivity].
  rewrite fmap_is_Some. reflexivity.
Qed.

Lemma forallb_sqlite_integer (df : DataFrame) :
  Forall (fun row => -(2 ^ 63) <= snd row < 2 ^ 63) df ->
  forallb (fun row => sqlite_integer (snd row)) df = true.
Proof.
  induction 1 as [|row df Hrow _ IH]; [reflexivity|].
  simpl. rewrite IH, andb_true_r. unfold sqlite_integer.
  apply andb_true_iff. split; [apply Z.leb_le|apply Z.ltb_lt]; lia.
Qed.

(** X4: when every quantity of the frame fits a signed 64-bit integer,
    after the save a stored name the frame mentions holds the quantity
    of the last frame row with that name, a stored name the frame does
    not mention keeps its quantity, and a name that was not stored is
    still not stored. *)
Theorem save_inventory_last_row_wins (db : DB) (df : DataFrame) (n : string) :
  Forall (fun row => -(2 ^ 63) <= snd row < 2 ^ 63) df ->
  (forall q, last_quantity df n = Some q ->
             user_inventory (save_inventory db df) !! n
             = (fun _ => q) <$> user_inventory db !! n)
  /\ (~ In n (map fst df) ->
      user_inventory (save_inventory db df) !! n = user_inventory db !! n)
  /\ (user_inventory db !! n = None ->
      user_inventory (save_inventory db df) !! n = None).
Proof.
  intros Hrange. apply forallb_sqlite_integer in Hrange.
  destruct (save_inventory_cases db df) as [[_ ->]|[Hbad _]]; [|congruence].
  simpl. rewrite lookup_saved. split; [|split].
  - intros q ->. reflexivity.
  - intros Hn. apply last_quantity_none in Hn. rewrite Hn. reflexivity.
  - intros Hnone. rewrite Hnone. destruct (last_quantity df n); reflexivity.
Qed.

Lemma save_inventory_last_row_wins_witness :
  (forall q,
      last_quantity [("Apple"%string, 1); ("Plum"%string, 4); ("Apple"%string, 8)]
        "Apple" = Some q ->
      user_inventory
        (save_inventory pantry
           [("Apple"%string, 1); ("Plum"%string, 4); ("Apple"%string, 8)])
        !! "Apple"%string
      = (fun _ => q) <$> user_inventory pantry !! "Apple"%string)
  /\ (~ In "Apple"%string
         (map fst [("Apple"%string, 1); ("Plum"%string, 4); ("Apple"%string, 8)]) ->
      user_inventory
        (save_inventory pantry
           [("Apple"%string, 1); ("Plum"%string, 4); ("Apple"%string, 8)])
        !! "Apple"%string
      = user_inventory pantry !! "Apple"%string)
  /\ (user_inventory pantry !! "Apple"%string = None ->
      user_inventory
        (save_inventory pantry
           [("Apple"%string, 1); ("Plum"%string, 4); ("Apple"%string, 8)])
        !! "Apple"%string
      = None).
Proof.
  apply (save_inventory_last_row_wins pantry
           [("Apple"%string, 1); ("Plum"%string, 4); ("Apple"%string, 8)] "Apple").
  repeat constructor; simpl; lia.
Defined.

Example later_row_overrides :
  user_inventory
    (save_inventory pantry [("Apple"%string, 1); ("Plum"%string, 4);
                            ("Apple"%string, 8)])
  = {[ "Apple"%string := 8; "Pear"%string := 0 ]}.
Proof. vm_compute. reflexivity. Qed.

Example unbindable_quantity_saves_nothing :
  save_inventory pantry [("Pear"%string, 7); ("Apple"%string, 2 ^ 63)] = pantry.
Proof. vm_compute. reflexivity. Qed.

(** X5: a save neither adds nor removes inventory rows: the stored
    names are the same after it, whatever the frame holds. *)
Theorem save_inventory_keeps_names (db : DB) (df : DataFrame) :
  dom (user_inventory (save_inventory db df)) = dom (user_inventory db).
Proof.
  destruct (save_inventory_cases db df) as [[_ ->]|[_ ->]]; [|reflexivity].
  simpl. apply dom_saved.
Qed.

(** X6: saving rows that carry the quantities already stored changes
    nothing; this is what happens to the rows an edit did not touch. *)
Theorem save_inventory_same_rows (db : DB) (df : DataFrame) :
  (forall n q, In (n, q) df -> user_inventory db !! n = Some q) ->
  save_inventory db df = db.
Proof.
  intros Hsame.
  destruct (save_inventory_cases db df) as [[_ ->]|[_ ->]]; [|reflexivity].
  destruct db as [cat items inv]. simpl in *. f_equal.
  apply map_eq. intros n. rewrite lookup_saved.
  destruct (last_quantity df n) as [q|] eqn:Hlast; [|reflexivity].
  apply last_quantity_in in Hlast. rewrite (Hsame n q Hlast). reflexivity.
Qed.

Lemma save_inventory_same_rows_witness :
  save_inventory pantry [("Pear"%string, 0); ("Apple"%string, 5)] = pantry.
Proof.
  apply (save_inventory_same_rows pantry).
  intros n q [Heq|[Heq|[]]]; inversion Heq; subst; vm_compute; reflexivity.
Defined.

(** X7: saving the same frame twice leaves what saving it once leaves. *)
Theorem save_inventory_idempotent (db : DB) (df : DataFrame) :
  save_inventory (save_inventory db df) df = save_inventory db df.
Proof.
  destruct (save_inventory_cases db df) as [[Hok Heq]|[_ Heq]].
  - rewrite Heq. unfold save_inventory. rewrite Hok. simpl. f_equal.
    apply map_eq. intros n. rewrite !lookup_saved.
    destruct (last_quantity df n); [|reflexivity].
    destruct (user_inventory db !! n); reflexivity.
  - rewrite Heq. exact Heq.
Qed.

(** * What every session keeps *)

Lemma step_tables (s : Session) (a : Action) :
  recipes (database (step s a)) = recipes (database s)
  /\ recipe_items (database (step s a)) = recipe_items (database s)
  /\ dom (user_inventory (database (step s a)))
     = dom (user_inventory (database s)).
Proof.
  assert (Hsave : forall df,
            recipes (save_inventory (database s) df) = recipes (database s)
            /\ recipe_items (save_inventory (database s) df)
               = recipe_items (database s)
            /\ dom (user_inventory (save_inventory (database s) df))
               = dom (user_inventory (database s))).
  { intros df.
    destruct (save_inventory_cases (database s) df) as [[_ ->]|[_ ->]];
      repeat split; try reflexivity.
    simpl. apply dom_saved. }
  destruct a as [imported_df|edited_df|f|rid]; simpl.
  - apply Hsave.
  - apply Hsave.
  - repeat split; reflexivity.
  - repeat split; try reflexivity. apply dom_deduct.
Qed.

Lemma dom_empty_iff_map (inv : gmap string Z) :
  inv = ∅ <-> dom inv = ∅.
Proof.
  split; [intros ->; apply dom_empty_L|]. intros Hdom.
  apply map_eq. intros n. rewrite lookup_empty.
  apply not_elem_of_dom. rewrite Hdom. apply not_elem_of_empty.
Qed.

(** X8: no action changes the catalog tables or the set of stored
    berry names: in every reachable session they are what [init_db]
    left. *)
Theorem reachable_keeps_tables (db0 : DB) (s : Session) :
  reachable db0 s ->
  recipes (database s) = recipes db0
  /\ recipe_items (database s) = recipe_items db0
  /\ dom (user_inventory (database s)) = dom (user_inventory (init_db db0)).
Proof.
  induction 1 as [|s a Hreach [IHr [IHi IHd]] Hen].
  - simpl. destruct (init_db_tables db0) as [Hr Hi]. repeat split; assumption.
  - destruct (step_tables s a) as [Hr [Hi Hd]].
    rewrite Hr, Hi, Hd. repeat split; assumption.
Qed.

Lemma reachable_keeps_tables_witness :
  recipes (database (step {| database := init_db catalog_file; filters := None |}
                          (ConfirmImport [("Apple"%string, 5)])))
  = recipes catalog_file
  /\ recipe_items
       (database (step {| database := init_db catalog_file; filters := None |}
                       (ConfirmImport [("Apple"%string, 5)])))
     = recipe_items catalog_file
  /\ dom (user_inventory
            (database (step {| database := init_db catalog_file; filters := None |}
                            (ConfirmImport [("Apple"%string, 5)]))))
     = dom (user_inventory (init_db catalog_file)).
Proof.
  apply (reachable_keeps_tables catalog_file).
  apply reach_step; [apply reach_init|exact I].
Defined.

(** X9: the call of [init_db] at the top of every rerun is a no-op in
    every reachable session: once seeded, no rerun resets a quantity or
    adds a row. *)
Theorem reachable_init_db_noop (db0 : DB) (s : Session) :
  reachable db0 s -> init_db (database s) = database s.
Proof.
  intros Hreach. apply init_db_fixed_iff.
  induction Hreach as [|s a Hreach IH Hen].
  - simpl. destruct (init_db_tables db0) as [_ Hitems]. rewrite Hitems.
    apply init_db_settled.
  - destruct (step_tables s a) as [_ [Hi Hd]]. rewrite Hi.
    destruct IH as [Hne|Hnil]; [left|right; exact Hnil].
    intros Hempty. apply Hne. apply dom_empty_iff_map.
    rewrite <- Hd, Hempty. apply dom_empty_L.
Qed.

Lemma reachable_init_db_noop_witness :
  init_db (database (step {| database := init_db catalog_file; filters := None |}
                          (EditInventory [("Apple"%string, 5)])))
  = database (step {| database := init_db catalog_file; filters := None |}
                   (EditInventory [("Apple"%string, 5)])).
Proof.
  apply (reachable_init_db_noop catalog_file).
  apply reach_step; [apply reach_init|].
  simpl. repeat constructor; simpl; lia.
Defined.

(** X10: starting from a database without a negative quantity, no
    session reached through the editor, searches, cooks and imports of
    frames without a negative quantity stores a negative quantity. *)
Theorem clean_sessions_nonneg (db0 : DB) (s : Session) :
  nonneg (user_inventory db0) ->
  clean_reachable db0 s ->
  nonneg (user_inventory (database s)).
Proof.
  intros Hdb0. induction 1 as [|s a Hreach IH Hen Hclean].
  - simpl. apply init_db_nonneg, Hdb0.
  - apply step_nonneg; [exact Hen| |exact IH].
    destruct a; exact Hclean || exact I.
Qed.

Lemma clean_sessions_nonneg_witness :
  nonneg
    (user_inventory
       (database (step {| database := init_db catalog_file; filters := None |}
                       (EditInventory [("Apple"%string, 5)])))).
Proof.
  apply (clean_sessions_nonneg catalog_file).
  - intros n q Hrow. simpl in Hrow. rewrite lookup_empty in Hrow.
    discriminate Hrow.
  - apply clean_step; [apply clean_init| |exact I].
    simpl. repeat constructor; simpl; lia.
Defined.

(** * Cooking, beyond one well-formed recipe *)

Lemma required_nonneg rows (n : string) :
  Forall (fun row : string * Z => 0 <= snd row) rows -> 0 <= required rows n.
Proof.
  induction 1 as [|row rows Hrow _ IH]; simpl; [lia|].
  destruct (decide (row.1 = n)); lia.
Qed.

Lemma required_unnamed rows (n : string) :
  n ∉ map fst rows -> required rows n = 0.
Proof.
  induction rows as [|row rows IH]; intros Hn; simpl; [reflexivity|].
  rewrite IH by (intros Hin; apply Hn; simpl; apply list_elem_of_further, Hin).
  destruct (decide (row.1 = n)) as [Heq|]; [|reflexivity].
  exfalso. apply Hn. simpl. rewrite Heq. apply list_elem_of_here.
Qed.

(** What the loop of [cook_recipe] leaves in a row when no count is
    negative: the clamped difference with the total asked of the name. *)
Lemma lookup_deduct_total rows :
  Forall (fun row : string * Z => 0 <= snd row) rows ->
  forall (inv : gmap string Z) (n : string),
    deduct inv rows !! n
    = (fun q => if decide (n ∈ map fst rows)
                then Z.max 0 (q - required rows n) else q) <$> inv !! n.
Proof.
  induction 1 as [|row rows Hrow Hrows IH]; intros inv n.
  - simpl. destruct (inv !! n); reflexivity.
  - rewrite deduct_cons, IH, lookup_decrement.
    assert (Hreq := required_nonneg rows n Hrows).
    assert (Hzero := required_unnamed rows n).
    cbn [required map].
    assert (Hcons : n ∈ row.1 :: map fst rows <-> row.1 = n \/ n ∈ map fst rows).
    { rewrite elem_of_cons. split; intros [Hn|Hn]; auto. }
    destruct (decide (row.1 = n)) as [Heq|Hne];
      destruct (inv !! n) as [q|]; simpl; try reflexivity; f_equal;
      destruct (decide (n ∈ map fst rows)) as [Hin|Hnin];
      destruct (decide (n ∈ row.1 :: map fst rows)) as [Hc|Hc];
      try (exfalso; tauto); try rewrite (Hzero Hnin); lia.
Qed.

Lemma required_select_items (db : DB) (rid : Z) (n : string) :
  required (select_items db rid) n = asked (recipe_items db) rid n.
Proof.
  unfold select_items. induction (recipe_items db) as [|ri items IH];
    [reflexivity|].
  simpl. destruct (Z.eqb_spec (recipe_id ri) rid) as [Hid|Hid]; simpl.
  - rewrite IH. destruct (decide (berry_name ri = n)) as [Hn|Hn].
    + rewrite decide_True by (split; assumption). reflexivity.
    + rewrite decide_False by (intros [_ H]; exact (Hn H)). reflexivity.
  - rewrite IH, decide_False by (intros [H _]; exact (Hid H)). reflexivity.
Qed.

(** X11: when no row of [recipe_items] with the cooked id asks a
    negative count, cooking leaves under each berry name these rows
    carry the clamped difference between its stored quantity and the
    total these rows ask of that berry, however often the name repeats
    among them. *)
Theorem cook_recipe_total (db : DB) (rid : Z) (n : string) :
  (forall ri, In ri (recipe_items db) -> recipe_id ri = rid -> 0 <= count ri) ->
  (exists ri, In ri (recipe_items db) /\ recipe_id ri = rid /\ berry_name ri = n) ->
  user_inventory (cook_recipe db rid) !! n
  = (fun q => Z.max 0 (q - asked (recipe_items db) rid n))
      <$> user_inventory db !! n.
Proof.
  intros Hcounts [ri [Hin [Hid Hname]]].
  assert (Hall : Forall (fun row : string * Z => 0 <= snd row) (select_items db rid)).
  { apply Forall_forall. intros [n' c] Hrow. apply list_elem_of_In in Hrow.
    apply in_select_items in Hrow as [ri' [Hin' [Hid' [_ <-]]]].
    exact (Hcounts ri' Hin' Hid'). }
  simpl. rewrite (lookup_deduct_total _ Hall), required_select_items.
  destruct (decide (n ∈ map fst (select_items db rid))) as [_|Hn];
    [reflexivity|].
  exfalso. apply Hn, list_elem_of_In. apply in_map_iff.
  exists (n, count ri). split; [reflexivity|].
  apply in_select_items. exists ri. repeat split; assumption.
Qed.

Lemma cook_recipe_total_witness :
  user_inventory (cook_recipe apple_twice 1) !! "Apple"%string = Some 1.
Proof.
  assert (Hcounts : forall ri, In ri (recipe_items apple_twice) ->
                               recipe_id ri = 1 -> 0 <= count ri).
  { intros ri [<-|[<-|[]]] _; simpl; lia. }
  assert (Hnamed : exists ri, In ri (recipe_items apple_twice)
                              /\ recipe_id ri = 1
                              /\ berry_name ri = "Apple"%string).
  { exists (mkItem 1 "Apple" 2). repeat split. left. reflexivity. }
  exact (cook_recipe_total apple_twice 1 "Apple" Hcounts Hnamed).
Defined.

Example repeated_name_is_deducted_twice :
  user_inventory (cook_recipe apple_twice 1) = {[ "Apple"%string := 1 ]}.
Proof. vm_compute. reflexivity. Qed.

(** X12: the order of two cooks does not matter when no count of
    either recipe is negative. *)
Theorem cook_recipe_commute (db : DB) (a b : Z) :
  Forall (fun row => 0 <= snd row) (select_items db a) ->
  Forall (fun row => 0 <= snd row) (select_items db b) ->
  cook_recipe (cook_recipe db a) b = cook_recipe (cook_recipe db b) a.
Proof.
  intros Ha Hb. unfold cook_recipe. simpl. f_equal.
  change (select_items _ b) with (select_items db b).
  change (select_items _ a) with (select_items db a).
  apply map_eq. intros n.
  repeat (rewrite (lookup_deduct_total _ Ha)
          || rewrite (lookup_deduct_total _ Hb)).
  assert (Hra := required_nonneg _ n Ha).
  assert (Hrb := required_nonneg _ n Hb).
  destruct (user_inventory db !! n) as [q|]; [|reflexivity]. simpl.
  destruct (decide (n ∈ map fst (select_items db a)));
    destruct (decide (n ∈ map fst (select_items db b)));
    f_equal; lia.
Qed.

Lemma cook_recipe_commute_witness :
  cook_recipe (cook_recipe orchard 1) 2 = cook_recipe (cook_recipe orchard 2) 1.
Proof.
  apply (cook_recipe_commute orchard 1 2);
    repeat constructor; simpl; lia.
Defined.

(** X13: cooking never adds stock: when no stored quantity and no count
    of the recipe is negative, every quantity read after the cook is at
    most what was read before, and none is negative. *)
Theorem cook_recipe_never_adds (db : DB) (rid : Z) (n : string) :
  nonneg (user_inventory db) ->
  Forall (fun row => 0 <= snd row) (select_items db rid) ->
  0 <= inventory_quantity (user_inventory (cook_recipe db rid)) n
       <= inventory_quantity (user_inventory db) n.
Proof.
  intros Hinv Hcounts. unfold inventory_quantity. simpl.
  rewrite (lookup_deduct_total _ Hcounts).
  assert (Hreq := required_nonneg _ n Hcounts).
  destruct (user_inventory db !! n) as [q|] eqn:Hrow; simpl; [|lia].
  specialize (Hinv n q Hrow).
  destruct (decide (n ∈ map fst (select_items db rid))); lia.
Qed.

Lemma cook_recipe_never_adds_witness :
  0 <= inventory_quantity (user_inventory (cook_recipe pantry 1)) "Apple"
       <= inventory_quantity (user_inventory pantry) "Apple".
Proof.
  apply (cook_recipe_never_adds pantry 1 "Apple").
  - intros n q Hrow.
    destruct (decide (n = "Apple"%string)) as [->|Ha];
      [vm_compute in Hrow; inversion Hrow; lia|].
    destruct (decide (n = "Pear"%string)) as [->|Hp];
      [vm_compute in Hrow; inversion Hrow; lia|].
    simpl in Hrow.
    rewrite lookup_insert_ne, lookup_singleton_ne in Hrow by congruence.
    discriminate Hrow.
  - repeat constructor; simpl; lia.
Defined.

(** * Cooking and searching together *)

Lemma select_items_cooked (db : DB) (rid rid' : Z) :
  select_items (cook_recipe db rid) rid' = select_items db rid'.
Proof. reflexivity. Qed.



Lemma in_matched_rows (db : DB) (f : Filters) (r : Recipe) :
  In r (matched_rows db f) -> In r (qualifying db f).
Proof.
  unfold matched_rows. intros Hin.
  apply (Permutation_in r (sort_rows_perm (row_leb (order_by f)) (qualifying db f))).
  rewrite <- (firstn_skipn 50). apply in_or_app. left. exact Hin.
Qed.

(** X16: cooking never makes a recipe craftable: when no stored
    quantity and no count of the cooked recipe is negative, a recipe
    that is craftable after the cook was craftable before it. *)
Theorem cook_never_unlocks (db : DB) (rid : Z) (r : Recipe) :
  nonneg (user_inventory db) ->
  Forall (fun row => 0 <= snd row) (select_items db rid) ->
  craftable (cook_recipe db rid) r = true ->
  craftable db r = true.
Proof.
  intros Hinv Hcounts. rewrite !craftable_spec, select_items_cooked.
  intros H n c Hin. specialize (H n c Hin).
  unfold inventory_quantity in *. simpl in H.
  rewrite (lookup_deduct_total _ Hcounts) in H.
  assert (Hreq := required_nonneg _ n Hcounts).
  destruct (user_inventory db !! n) as [q|] eqn:Hrow; simpl in *; [|exact H].
  specialize (Hinv n q Hrow).
  destruct (decide (n ∈ map fst (select_items db rid))); lia.
Qed.

Lemma cook_never_unlocks_witness :
  craftable (save_inventory pantry [("Apple"%string, 9); ("Pear"%string, 3)]) R1
  = true.
Proof.
  apply (cook_never_unlocks
           (save_inventory pantry [("Apple"%string, 9); ("Pear"%string, 3)]) 1 R1).
  - intros n q Hrow.
    destruct (decide (n = "Apple"%string)) as [->|Ha];
      [vm_compute in Hrow; inversion Hrow; lia|].
    destruct (decide (n = "Pear"%string)) as [->|Hp];
      [vm_compute in Hrow; inversion Hrow; lia|].
    simpl in Hrow. rewrite !lookup_update_quantity in Hrow. simpl in Hrow.
    rewrite !decide_False in Hrow by congruence.
    rewrite lookup_insert_ne, lookup_singleton_ne in Hrow by congruence.
    discriminate Hrow.
  - repeat constructor; simpl; lia.
  - vm_compute. reflexivity.
Defined.

(** X17: cooking one recipe leaves the craftability of every recipe
    that shares no berry with it as it was. *)
Theorem cook_spares_disjoint (db : DB) (rid : Z) (r : Recipe) :
  (forall n, In n (map fst (select_items db rid)) ->
             ~ In n (map fst (select_items db (r_id r)))) ->
  craftable (cook_recipe db rid) r = craftable db r.
Proof.
  intros Hdisj.
  assert (Hsame : forall n c, In (n, c) (select_items db (r_id r)) ->
            inventory_quantity (user_inventory (cook_recipe db rid)) n
            = inventory_quantity (user_inventory db) n).
  { intros n c Hin. unfold inventory_quantity. simpl.
    rewrite lookup_deduct_other; [reflexivity|].
    intros Hn. apply (Hdisj n Hn). apply (in_map fst) in Hin. exact Hin. }
  destruct (craftable db r) eqn:Hbefore.
  - apply craftable_spec. rewrite select_items_cooked. intros n c Hin.
    rewrite (Hsame n c Hin). exact (proj1 (craftable_spec db r) Hbefore n c Hin).
  - destruct (craftable (cook_recipe db rid) r) eqn:Hafter; [|reflexivity].
    rewrite <- Hbefore. symmetry. apply craftable_spec. intros n c Hin.
    rewrite <- (Hsame n c Hin).
    apply (proj1 (craftable_spec (cook_recipe db rid) r) Hafter n c).
    rewrite select_items_cooked. exact Hin.
Qed.

Lemma cook_spares_disjoint_witness :
  craftable (cook_recipe orchard 2) R1 = craftable orchard R1.
Proof.
  apply (cook_spares_disjoint orchard 2 R1).
  intros n [<-|[]] [H|[H|[]]]; discriminate H.
Defined.

(** * Ranges and ranking modes *)

Lemma matched_rows_nil (db : DB) (f : Filters) :
  (forall r, where_sql f r = false) -> query db f = [].
Proof.
  intros Hnone. unfold query, matched_rows.
  assert (Hq : qualifying db f = []).
  { unfold qualifying. apply filter_nil_iff. intros r _.
    rewrite Hnone. apply andb_false_r. }
  rewrite Hq. reflexivity.
Qed.

(** X18: a range whose lower bound is above its upper bound, entered
    for a flavor or for the stat, rejects every recipe: the query
    returns no row. *)
Theorem inverted_range_matches_nothing (db : DB) (f : Filters)
    (min_v max_v : Z) :
  max_v < min_v ->
  (exists col, In (col, (min_v, max_v)) (flavors f))
  \/ (exists col, stats f = Some (col, min_v, max_v)) ->
  query db f = [].
Proof.
  intros Hinv Hrange. apply matched_rows_nil. intros r.
  destruct (where_sql f r) eqn:Hpass; [|reflexivity].
  apply where_sql_columns in Hpass as [Hfl Hst].
  destruct Hrange as [[col Hin]|[col Hin]].
  - specialize (Hfl col min_v max_v Hin). lia.
  - specialize (Hst col min_v max_v Hin). lia.
Qed.

Lemma inverted_range_matches_nothing_witness :
  query orchard {| flavors := [(Sour, (700, 600))]; stats := None; prio := true |}
  = [].
Proof.
  apply (inverted_range_matches_nothing orchard
           {| flavors := [(Sour, (700, 600))]; stats := None; prio := true |}
           700 600).
  - lia.
  - left. exists Sour. left. reflexivity.
Defined.

Lemma qualifying_other_mode (db : DB) (f : Filters) :
  qualifying db (other_mode f) = qualifying db f.
Proof. reflexivity. Qed.

(** X19: when at most 50 recipes qualify, the ranking mode decides only
    the order: both modes return the same recipes, each as often as it
    qualifies. *)
Theorem ranking_mode_only_reorders (db : DB) (f : Filters) :
  (length (qualifying db f) <= 50)%nat ->
  Permutation (matched_rows db f) (matched_rows db (other_mode f))
  /\ Permutation (matched_rows db f) (qualifying db f).
Proof.
  intros Hlen.
  assert (Hall : forall g, qualifying db g = qualifying db f ->
            Permutation (matched_rows db g) (qualifying db f)).
  { intros g Hg. unfold matched_rows. rewrite Hg, firstn_all2.
    - apply sort_rows_perm.
    - rewrite (Permutation_length (sort_rows_perm _ _)). exact Hlen. }
  split.
  - rewrite (Hall f eq_refl). symmetry.
    apply Hall, qualifying_other_mode.
  - apply Hall. reflexivity.
Qed.

Lemma ranking_mode_only_reorders_witness :
  Permutation
    (matched_rows orchard {| flavors := []; stats := None; prio := true |})
    (matched_rows orchard
       (other_mode {| flavors := []; stats := None; prio := true |}))
  /\ Permutation
       (matched_rows orchard {| flavors := []; stats := None; prio := true |})
       (qualifying orchard {| flavors := []; stats := None; prio := true |}).
Proof.
  apply (ranking_mode_only_reorders orchard
           {| flavors := []; stats := None; prio := true |}).
  vm_compute. lia.
Defined.

Example modes_order_the_orchard :
  map r_id (matched_rows orchard {| flavors := []; stats := None; prio := true |})
  = [2; 1]
  /\ map r_id
       (matched_rows orchard {| flavors := []; stats := None; prio := false |})
     = [1; 2].
Proof. split; reflexivity. Qed.

(** * Result rows, imports and extra filters *)

Lemma NoDup_map_filter {A B : Type} (g : A -> B) (p : A -> bool) (l : list A) :
  NoDup (map g l) -> NoDup (map g (List.filter p l)).
Proof.
  induction l as [|a l IH]; simpl; intros Hnd; [constructor|].
  apply NoDup_cons in Hnd as [Hfresh Hnd].
  destruct (p a); [|apply IH, Hnd].
  simpl. apply NoDup_cons. split; [|apply IH, Hnd].
  intros Hin. apply Hfresh. apply list_elem_of_In in Hin.
  apply list_elem_of_In. apply in_map_iff in Hin as [x [Hx Hin]].
  apply filter_In in Hin as [Hin _]. apply in_map_iff. exists x. split; assumption.
Qed.

(** X20: when the ids of the catalog are distinct, no id occurs twice
    among the returned rows, so the keys [btn_<id>] of the "Cook This"
    buttons are distinct. *)
Theorem result_ids_distinct (db : DB) (f : Filters) :
  NoDup (map r_id (recipes db)) ->
  NoDup (map r_id (matched_rows db f))
  /\ map (fun row => fst (fst (fst (fst (fst row))))) (query db f)
     = map r_id (matched_rows db f).
Proof.
  intros Hnd. split.
  - assert (Hq : NoDup (map r_id (qualifying db f))).
    { unfold qualifying. apply NoDup_map_filter, Hnd. }
    assert (Hs : NoDup (map r_id (sort_rows (row_leb (order_by f)) (qualifying db f)))).
    { assert (Hp : Permutation
                (map r_id (sort_rows (row_leb (order_by f)) (qualifying db f)))
                (map r_id (qualifying db f)))
        by apply Permutation_map, sort_rows_perm.
      rewrite Hp. exact Hq. }
    unfold matched_rows.
    rewrite <- (firstn_skipn 50 (sort_rows _ _)), map_app in Hs.
    apply NoDup_app in Hs as [Hs _]. exact Hs.
  - unfold query. rewrite map_map. reflexivity.
Qed.

Lemma result_ids_distinct_witness :
  NoDup (map r_id
           (matched_rows orchard {| flavors := []; stats := None; prio := true |}))
  /\ map (fun row => fst (fst (fst (fst (fst row)))))
         (query orchard {| flavors := []; stats := None; prio := true |})
     = map r_id
         (matched_rows orchard {| flavors := []; stats := None; prio := true |}).
Proof.
  apply (result_ids_distinct orchard
           {| flavors := []; stats := None; prio := true |}).
  simpl. apply NoDup_cons. split.
  - intros H. apply list_elem_of_In in H. destruct H as [H|[]]. discriminate H.
  - apply NoDup_cons. split; [|constructor].
    intros H. apply list_elem_of_In in H. destruct H.
Defined.

(** X21: saving a frame leaves the craftability of a recipe as it was
    when the frame lists none of the recipe's berries. *)
Theorem save_spares_unlisted (db : DB) (df : DataFrame) (r : Recipe) :
  (forall n, In n (map fst df) -> ~ In n (map fst (select_items db (r_id r)))) ->
  craftable (save_inventory db df) r = craftable db r.
Proof.
  intros Hdisj.
  assert (Hsame : forall n c, In (n, c) (select_items db (r_id r)) ->
            inventory_quantity (user_inventory (save_inventory db df)) n
            = inventory_quantity (user_inventory db) n).
  { intros n c Hin. unfold inventory_quantity.
    destruct (save_inventory_cases db df) as [[_ ->]|[_ ->]]; [|reflexivity].
    simpl. rewrite lookup_saved.
    assert (Hnone : last_quantity df n = None).
    { apply last_quantity_none. intros Hn. apply (Hdisj n Hn).
      apply (in_map fst) in Hin. exact Hin. }
    rewrite Hnone. reflexivity. }
  assert (Hsel : select_items (save_inventory db df) (r_id r)
                 = select_items db (r_id r)).
  { unfold select_items.
    destruct (save_inventory_tables db df) as [_ ->]. reflexivity. }
  destruct (craftable db r) eqn:Hbefore.
  - apply craftable_spec. rewrite Hsel. intros n c Hin.
    rewrite (Hsame n c Hin). exact (proj1 (craftable_spec db r) Hbefore n c Hin).
  - destruct (craftable (save_inventory db df) r) eqn:Hafter; [|reflexivity].
    rewrite <- Hbefore. symmetry. apply craftable_spec. intros n c Hin.
    rewrite <- (Hsame n c Hin).
    apply (proj1 (craftable_spec (save_inventory db df) r) Hafter n c).
    rewrite Hsel. exact Hin.
Qed.

Lemma save_spares_unlisted_witness :
  craftable (save_inventory orchard [("Plum"%string, 0)]) R1
  = craftable orchard R1.
Proof.
  apply (save_spares_unlisted orchard [("Plum"%string, 0)] R1).
  intros n [<-|[]] [H|[H|[]]]; discriminate H.
Defined.

(** X22: entering more ranges never lets a recipe qualify that did not
    qualify without them, and while at most 50 recipes qualify it never
    adds a row to the result. *)
Theorem more_filters_fewer_rows (db : DB) (f g : Filters) (r : Recipe) :
  (forall item, In item (flavors f) -> In item (flavors g)) ->
  (stats f = None \/ stats f = stats g) ->
  (In r (qualifying db g) -> In r (qualifying db f))
  /\ ((length (qualifying db f) <= 50)%nat ->
      In r (matched_rows db g) -> In r (matched_rows db f)).
Proof.
  intros Hfl Hst.
  assert (Hq : In r (qualifying db g) -> In r (qualifying db f)).
  { rewrite !in_qualifying, !where_sql_columns.
    intros [Hcat [Hcraft [Hpf Hps]]].
    split; [exact Hcat|split; [exact Hcraft|split]].
    - intros col min_v max_v Hin. apply Hpf, Hfl, Hin.
    - intros col min_v max_v Hin. destruct Hst as [Hnone|Hsame].
      + rewrite Hnone in Hin. discriminate Hin.
      + apply Hps. rewrite <- Hsame. exact Hin. }
  split; [exact Hq|].
  intros Hlen Hin. apply in_matched_rows, Hq in Hin.
  unfold matched_rows. rewrite firstn_all2.
  - apply (Permutation_in r (Permutation_sym (sort_rows_perm _ _))), Hin.
  - rewrite (Permutation_length (sort_rows_perm _ _)). exact Hlen.
Qed.

Lemma more_filters_fewer_rows_witness :
  (In R2 (qualifying orchard
            {| flavors := [(Sour, (500, 760))]; stats := None; prio := true |}) ->
   In R2 (qualifying orchard {| flavors := []; stats := None; prio := true |}))
  /\ ((length (qualifying orchard
                 {| flavors := []; stats := None; prio := true |}) <= 50)%nat ->
      In R2 (matched_rows orchard
               {| flavors := [(Sour, (500, 760))]; stats := None; prio := true |}) ->
      In R2 (matched_rows orchard
               {| flavors := []; stats := None; prio := true |})).
Proof.
  apply (more_filters_fewer_rows orchard
           {| flavors := []; stats := None; prio := true |}
           {| flavors := [(Sour, (500, 760))]; stats := None; prio := true |} R2).
  - intros item [].
  - left. reflexivity.
Defined.
